(** * Ring-down acquisition sequencer (Rd_test_clean.py)

    A shallow embedding of the acquisition script: the memory layout
    arithmetic, the completion waiter [wait_done], the identity check,
    the chunked DDR transfers and the top-level sequence of hardware
    accesses, followed by the properties established about them.

    Python integers are [Z]; Python floats are IEEE-754 binary64 values,
    modelled bit-exactly with the Standard Library's [SpecFloat]
    (round-to-nearest-even); [//] and [%] are [Z.div] and [Z.modulo],
    which agree with Python's floor division for every non-zero divisor. *)

From Stdlib Require Import ZArith List Lia Bool String Ascii.
From Stdlib Require Import Floats.SpecFloat.
Import ListNotations.
Local Open Scope Z_scope.

(* ===================================================================== *)
(** ** Exceptions and the error monad for pure computations            *)
(* ===================================================================== *)

(** The exceptions that the script's own expressions can raise. *)
Inductive exn : Type :=
| OverflowError                (* int(inf), int.to_bytes out of range  *)
| ValueError                   (* int(nan)                            *)
| ZeroDivisionError            (* [//] by zero                        *)
| TypeError                    (* 'bytes' object is not callable      *)
| MMIOError                    (* MMIO(...) could not map the region  *)
| TimeoutError (wp rp : Z)     (* raised by wait_done                 *)
| SystemExit (code : Z).       (* sys.exit                            *)

Inductive outcome (A : Type) : Type :=
| Done (a : A)
| Raised (e : exn).
Arguments Done {A} a.
Arguments Raised {A} e.

Definition obind {A B} (r : outcome A) (f : A -> outcome B) : outcome B :=
  match r with
  | Done a => f a
  | Raised e => Raised e
  end.

Declare Scope py_scope.
Delimit Scope py_scope with py.
Notation "'let?' x ':=' r 'in' k" := (obind r (fun x => k))
  (at level 10, x name, r at level 100, k at level 200) : py_scope.
Local Open Scope py_scope.

(* ===================================================================== *)
(** ** Python floats                                                   *)
(* ===================================================================== *)

Module PyFloat.

Definition prec : Z := 53.
Definition emax : Z := 1024.

Definition float := spec_float.

(** The binary64 number nearest to [m * 2^e]; exact when representable. *)
Definition f64 (m e : Z) : float := binary_normalize prec emax m e false.

Definition fmul : float -> float -> float := SFmul prec emax.
Definition fadd : float -> float -> float := SFadd prec emax.
Definition fsub : float -> float -> float := SFsub prec emax.

(** [a > b] on floats: false when either side is a NaN. *)
Definition fgt (a b : float) : bool :=
  match SFcompare a b with
  | Some Gt => true
  | _ => false
  end.

(** [a < b] and [a <= b] on floats: false when either side is a NaN. *)
Definition flt (a b : float) : bool := SFltb a b.
Definition fle (a b : float) : bool := SFleb a b.

(** Conversion of a Python int to float, as done by [int * float]:
    round to nearest even, OverflowError beyond the binary64 range. *)
Definition float_of_int (n : Z) : outcome float :=
  match binary_normalize prec emax n 0 false with
  | S754_infinity _ => Raised OverflowError
  | x => Done x
  end.

(** [int(x)] for a float [x]: truncation toward zero. *)
Definition int_of_float (x : float) : outcome Z :=
  match x with
  | S754_zero _ => Done 0
  | S754_infinity _ => Raised OverflowError
  | S754_nan => Raised ValueError
  | S754_finite s m e =>
      let a := match e with
               | Zneg p => Z.shiftr (Zpos m) (Zpos p)
               | _ => Z.shiftl (Zpos m) e
               end in
      Done (if s then - a else a)
  end.

(** [n * x] with [n] an int and [x] a float. *)
Definition mul_int_float (n : Z) (x : float) : outcome float :=
  let? fn := float_of_int n in Done (fmul fn x).

(** [x * n] with [x] a float and [n] an int. *)
Definition mul_float_int (x : float) (n : Z) : outcome float :=
  let? fn := float_of_int n in Done (fmul x fn).

(** The literals of the script, by their exact binary64 value. *)
Definition lit_1e_6  : float := f64 0x10c6f7a0b5ed8d (-72).  (* 1e-6  *)
Definition lit_0_001 : float := f64 0x10624dd2f1a9fc (-62).  (* 0.001 *)
Definition lit_0_05  : float := f64 0x1999999999999a (-57).  (* 0.05  *)
Definition lit_0_2   : float := f64 0x1999999999999a (-55).  (* 0.2   *)
Definition lit_0_5   : float := f64 1 (-1).                  (* 0.5   *)
Definition lit_30_0  : float := f64 30 0.                    (* 30.0  *)

(** [time.sleep(seconds)] converts its argument to a count of nanoseconds
    held in a signed 64-bit integer, rounding away from zero: a NaN is
    refused with ValueError, a count outside [-2^63, 2^63) with
    OverflowError, and a negative count with ValueError ("sleep length
    must be non-negative"). *)
Definition sleep_check (seconds : float) : outcome unit :=
  match seconds with
  | S754_nan => Raised ValueError
  | _ =>
      let ns := fmul seconds (f64 1000000000 0) in
      if fle (f64 (- 2 ^ 63) 0) ns && flt ns (f64 (2 ^ 63) 0) then
        if flt ns (S754_zero false) then Raised ValueError else Done tt
      else Raised OverflowError
  end.

End PyFloat.
Import PyFloat.

(* ===================================================================== *)
(** ** USER CONFIGURATION and the register map                         *)
(* ===================================================================== *)

(** The module-level constants that enter the sequencing.  The knobs that
    only shape the sample values of the sine (FREQ_HZ, AM_PK_V, DAC_BITS,
    FULL_SCALE_V) are left to the waveform synthesis, whose only
    contribution here is the number of samples it produces. *)
Record Config : Type := mkConfig {
  DURATION_S         : float;
  EXCITATION_TIME_US : Z;
  RELAXATION_TIME_US : Z;
  SAMPLE_RATE        : Z;
  AXIL_BASE          : Z;
  AXIL_SIZE          : Z;
  RAM_BASE           : Z;
  RAM_SIZE           : Z;
  SAMPLE_SIZE        : Z;
  BURST_BYTES        : Z
}.

Definition default_config : Config := {|
  DURATION_S         := lit_0_001;
  EXCITATION_TIME_US := 300;
  RELAXATION_TIME_US := 3000;
  SAMPLE_RATE        := 125000000;
  AXIL_BASE          := 0x40000000;
  AXIL_SIZE          := 0x1000;
  RAM_BASE           := 0x01000000;
  RAM_SIZE           := 4 * 1024 * 1024;
  SAMPLE_SIZE        := 2;
  BURST_BYTES        := 128
|}.

Definition MLA_CONST_REG              : Z := 0x00.
Definition WRITER_MIN_ADDRESS_REG     : Z := 0x04.
Definition WRITER_NUM_BURSTS_REG      : Z := 0x08.
Definition SOFT_RESET_REG             : Z := 0x0C.
Definition WRITER_WRITE_PTR_REG       : Z := 0x10.
Definition WRITER_DONE_REG            : Z := 0x14.
Definition RELAXATION_TIME_REG        : Z := 0x18.
Definition EXCITATION_TIME_REG        : Z := 0x1C.
Definition READER_MIN_ADDRESS_REG     : Z := 0x20.
Definition READER_READ_PTR_REG        : Z := 0x24.
Definition READER_DONE_REG            : Z := 0x28.
Definition READER_COMP_BURST_OUT_REG  : Z := 0x2C.
Definition READER_NUM_BURSTS_REG      : Z := 0x30.
Definition WRITER_COMP_BURST_OUT_REG  : Z := 0x34.
Definition READER_CONTINUOUS_MODE_REG : Z := 0x38.
Definition WRITER_CONTINUOUS_MODE_REG : Z := 0x3C.
Definition RELAY_ENABLED_REG          : Z := 0x40.
Definition TRIGGER_ENABLED_REG        : Z := 0x44.

(* ===================================================================== *)
(** ** Memory layout arithmetic (STEP 6 and STEP 7)                    *)
(* ===================================================================== *)

(** [a // b]. *)
Definition floordiv (a b : Z) : outcome Z :=
  if b =? 0 then Raised ZeroDivisionError else Done (a / b).

Section Layout.
Variable cfg : Config.

(** [N = int(DURATION_S * SAMPLE_RATE)]. *)
Definition N : outcome Z :=
  let? x := mul_float_int (DURATION_S cfg) (SAMPLE_RATE cfg) in
  int_of_float x.

(** [len(waveform)], the waveform being computed from [np.arange(N)],
    which is empty for [N <= 0]. *)
Definition waveform_len (n : Z) : Z := Z.max 0 n.

(** The remaining definitions take [waveform_samples = len(waveform)]. *)
Variable waveform_samples : Z.

(** [waveform_bytes] after the padding step:
    [pad = (-waveform_bytes) % 64; if pad > 0: waveform_bytes += pad]. *)
Definition pad : Z := (- (waveform_samples * SAMPLE_SIZE cfg)) mod 64.

Definition waveform_bytes : Z :=
  let waveform_bytes := waveform_samples * SAMPLE_SIZE cfg in
  if pad >? 0 then waveform_bytes + pad else waveform_bytes.

Definition waveform_bursts : outcome Z :=
  floordiv waveform_bytes (BURST_BYTES cfg).

Definition writer_offset : Z := RAM_BASE cfg + waveform_bytes.

Definition writer_offset_rel : Z := writer_offset - RAM_BASE cfg.

(** The float [(RELAXATION_TIME_US * 1e-6) * SAMPLE_RATE]. *)
Definition relax_product : outcome float :=
  let? x := mul_int_float (RELAXATION_TIME_US cfg) lit_1e_6 in
  mul_float_int x (SAMPLE_RATE cfg).

(** [relax_samples = int((RELAXATION_TIME_US * 1e-6) * SAMPLE_RATE)]. *)
Definition relax_samples : outcome Z :=
  let? y := relax_product in
  int_of_float y.

Definition pad_relax (relax_samples : Z) : Z := (- relax_samples) mod 64.

Definition relax_samples_aligned (relax_samples : Z) : Z :=
  relax_samples + pad_relax relax_samples.

Definition writer_num_bursts (relax_samples : Z) : outcome Z :=
  floordiv (relax_samples_aligned relax_samples * SAMPLE_SIZE cfg)
           (BURST_BYTES cfg).

Definition true_writer_bytes (writer_num_bursts : Z) : Z :=
  writer_num_bursts * BURST_BYTES cfg.

End Layout.

(** The values that the layout computation leaves in the script's
    variables (and later in the metadata). *)
Record Layout : Type := mkLayout {
  l_waveform_samples      : Z;
  l_waveform_bytes        : Z;
  l_waveform_bursts       : Z;
  l_writer_offset         : Z;
  l_writer_offset_rel     : Z;
  l_relax_samples         : Z;
  l_relax_samples_aligned : Z;
  l_writer_num_bursts     : Z;
  l_true_writer_bytes     : Z
}.

(** The layout computation in the order in which the script evaluates it
    (lines 197 to 253), without its progress prints. *)
Definition plan (cfg : Config) (waveform_samples : Z) : outcome Layout :=
  let? wbursts := waveform_bursts cfg waveform_samples in
  let? rs := relax_samples cfg in
  let? nb := writer_num_bursts cfg rs in
  Done {| l_waveform_samples      := waveform_samples;
          l_waveform_bytes        := waveform_bytes cfg waveform_samples;
          l_waveform_bursts       := wbursts;
          l_writer_offset         := writer_offset cfg waveform_samples;
          l_writer_offset_rel     := writer_offset_rel cfg waveform_samples;
          l_relax_samples         := rs;
          l_relax_samples_aligned := relax_samples_aligned rs;
          l_writer_num_bursts     := nb;
          l_true_writer_bytes     := true_writer_bytes cfg nb |}.

(* ===================================================================== *)
(** ** Effects: the device, the console and the clock                  *)
(* ===================================================================== *)

(** What the script prints.  Lines with interpolated values keep the
    values; fixed lines keep their text. *)
Inductive msg : Type :=
| Text (s : string)
| MapFailed (e : exn)
| UnrecognizedConstant (magic_str : string)
| IdentityConfirmed (magic_str : string)
| WaveformGenerated (waveform_samples : Z)
| WaveformOccupied (waveform_bytes waveform_bursts : Z)
| CaptureAbsolute (writer_offset : Z)
| CaptureRelative (writer_offset_rel : Z)
| RelaxAligned (relax_samples_aligned : Z)
| WriterBursts (writer_num_bursts : Z)
| CaptureSize (true_writer_bytes : Z)
| Progress (bytes_read bytes_to_read : Z).

(** Data handed to [ram_mmio.write]: the sample values come from numpy
    and stay abstract, the byte length is kept. *)
Inductive payload : Type :=
| WaveformBytes (length : Z)
| ZeroBytes (length : Z).

Record Metadata : Type := mkMetadata {
  md_excitation_time_us       : Z;
  md_relaxation_time_us       : Z;
  md_sample_rate_hz           : Z;
  md_waveform_samples         : Z;
  md_waveform_bytes           : Z;
  md_waveform_bursts          : Z;
  md_capture_bytes            : Z;
  md_capture_bursts           : Z;
  md_capture_start_offset_rel : Z;
  md_relax_samples_aligned    : Z
}.

Inductive event : Type :=
| EvPrint (m : msg)
| EvMap (base size : Z)                  (* MMIO(base, size) succeeded *)
| EvRead32 (reg value : Z)               (* axil_mmio.read32           *)
| EvWrite32 (reg value : Z)              (* axil_mmio.write32          *)
| EvRamWrite (offset : Z) (data : payload)  (* ram_mmio.write          *)
| EvRamRead (offset length : Z)          (* ram_mmio.read              *)
| EvSleep (seconds : float)
| EvInput
| EvOpen (name : string)
| EvFileWrite (chunk : list Byte.byte)
| EvJsonDump (m : Metadata)
| EvCloseRam
| EvCloseAxil.

(** The surroundings of one run: whether each region can be mapped, the
    values that the device returns to successive register reads, the
    readings of successive [time.time()] calls, and the DDR contents seen
    by [ram_mmio.read].  [reg_pos] and [clock_pos] count the reads made. *)
Record world : Type := mkWorld {
  axil_maps : bool;
  ram_maps  : bool;
  reg_in    : nat -> Z;
  reg_pos   : nat;
  clock_in  : nat -> float;
  clock_pos : nat;
  ddr       : Z -> Byte.byte
}.

Definition next_reg (w : world) : world :=
  mkWorld (axil_maps w) (ram_maps w) (reg_in w) (S (reg_pos w))
          (clock_in w) (clock_pos w) (ddr w).

Definition next_clock (w : world) : world :=
  mkWorld (axil_maps w) (ram_maps w) (reg_in w) (reg_pos w)
          (clock_in w) (S (clock_pos w)) (ddr w).

(** A computation returns or raises, moves the world on and emits events.
    The events are output only: no computation can inspect them.  Mapping
    a region can fail, [write32] refuses a value that is not an unsigned
    32-bit number, [ram_mmio.read] refuses a range that ends beyond the
    mapping, and [time.sleep] refuses a bad length; a refused call leaves
    no event.  The calls of [print], [input], [open], [f.write],
    [json.dump], [ram_mmio.write] and [close] are recorded as events and
    return normally. *)
Definition M (A : Type) : Type := world -> outcome A * world * list event.

Definition ret {A} (a : A) : M A := fun w => (Done a, w, []).

Definition bind {A B} (m : M A) (f : A -> M B) : M B :=
  fun w =>
    match m w with
    | (Done a, w1, e1) =>
        match f a w1 with
        | (r, w2, e2) => (r, w2, e1 ++ e2)
        end
    | (Raised e, w1, e1) => (Raised e, w1, e1)
    end.

Definition raise {A} (e : exn) : M A := fun w => (Raised e, w, []).

Definition lift {A} (r : outcome A) : M A := fun w => (r, w, []).

(** [try: body except Exception as e: handler(e)]. *)
Definition try_except {A} (body : M A) (handler : exn -> M A) : M A :=
  fun w =>
    match body w with
    | (Done a, w1, e1) => (Done a, w1, e1)
    | (Raised e, w1, e1) =>
        match handler e w1 with
        | (r, w2, e2) => (r, w2, e1 ++ e2)
        end
    end.

Notation "x <- m ;; k" := (bind m (fun x => k))
  (at level 61, m at next level, right associativity) : py_scope.
Notation "m ;; k" := (bind m (fun _ => k))
  (at level 61, right associativity) : py_scope.

Definition emit (e : event) : M unit := fun w => (Done tt, w, [e]).
Definition print (m : msg) : M unit := emit (EvPrint m).

Definition mmio_axil (base size : Z) : M unit :=
  fun w => if axil_maps w then (Done tt, w, [EvMap base size])
           else (Raised MMIOError, w, []).

Definition mmio_ram (base size : Z) : M unit :=
  fun w => if ram_maps w then (Done tt, w, [EvMap base size])
           else (Raised MMIOError, w, []).

Definition read32 (reg : Z) : M Z :=
  fun w => let v := reg_in w (reg_pos w) in
           (Done v, next_reg w, [EvRead32 reg v]).

(** The values that [write32] accepts. *)
Definition u32 (value : Z) : bool := (0 <=? value) && (value <=? 0xFFFFFFFF).

(** [axil_mmio.write32(reg, value)]: ValueError ("Value out of bounds")
    unless [0 <= value <= 0xffffffff]. *)
Definition write32 (reg value : Z) : M unit :=
  fun w => if u32 value
           then (Done tt, w, [EvWrite32 reg value])
           else (Raised ValueError, w, []).

Definition ram_write (offset : Z) (data : payload) : M unit :=
  emit (EvRamWrite offset data).

(** The [length] bytes of the buffer from [offset] on. *)
Definition ddr_slice (mem : Z -> Byte.byte) (offset length : Z) : list Byte.byte :=
  map (fun k => mem (offset + Z.of_nat k)) (seq 0 (Z.to_nat length)).

(** [ram_mmio.read(offset, length)] on a mapping of [ram_size] bytes:
    ValueError ("Offset out of bounds") when [offset + length] exceeds the
    size of the mapping. *)
Definition ram_read (ram_size offset length : Z) : M (list Byte.byte) :=
  fun w => if offset + length >? ram_size
           then (Raised ValueError, w, [])
           else (Done (ddr_slice (ddr w) offset length), w,
                 [EvRamRead offset length]).

Definition time_time : M float :=
  fun w => (Done (clock_in w (clock_pos w)), next_clock w, []).

Definition sleep (seconds : float) : M unit :=
  fun w => match sleep_check seconds with
           | Done _ => (Done tt, w, [EvSleep seconds])
           | Raised e => (Raised e, w, [])
           end.

(** [for x in l: body(x)]. *)
Fixpoint for_each {A} (l : list A) (body : A -> M unit) : M unit :=
  match l with
  | [] => ret tt
  | x :: l' => body x ;; for_each l' body
  end.

(** A [for] loop that updates one variable. *)
Fixpoint for_fold {A S} (l : list A) (body : A -> S -> M S) (s : S) : M S :=
  match l with
  | [] => ret s
  | x :: l' => s' <- body x s ;; for_fold l' body s'
  end.

(** [range(start, stop, step)] for a positive [step]. *)
Definition py_range (start stop step : Z) : list Z :=
  map (fun k => start + Z.of_nat k * step)
      (seq 0 (Z.to_nat ((stop - start + step - 1) / step))).

(** Python truthiness of an int. *)
Definition truthy (x : Z) : bool := negb (x =? 0).

(* ===================================================================== *)
(** ** Helper: wait until reader + writer are done (or timeout)        *)
(* ===================================================================== *)

(** The [while True] loop of [wait_done]; [fuel] bounds the number of
    iterations run, and [None] says that the loop is still polling. *)
Fixpoint wait_done_loop (fuel : nat) (t0 timeout_s poll_interval : float)
  : M (option (Z * Z)) :=
  match fuel with
  | O => ret None
  | S fuel' =>
      wd <- read32 WRITER_DONE_REG ;;
      let writer_done := Z.land wd 0x1 in
      rd <- read32 READER_DONE_REG ;;
      let reader_done := Z.land rd 0x1 in
      write_ptr <- read32 WRITER_WRITE_PTR_REG ;;
      read_ptr <- read32 READER_READ_PTR_REG ;;
      if truthy writer_done && truthy reader_done then
        ret (Some (write_ptr, read_ptr))
      else
        now <- time_time ;;
        if fgt (fsub now t0) timeout_s then
          raise (TimeoutError write_ptr read_ptr)
        else
          sleep poll_interval ;;
          wait_done_loop fuel' t0 timeout_s poll_interval
  end.

Definition wait_done (fuel : nat) (timeout_s poll_interval : float)
  : M (option (Z * Z)) :=
  t0 <- time_time ;;
  wait_done_loop fuel t0 timeout_s poll_interval.

(* ===================================================================== *)
(** ** STEP 5 - Map AXI-Lite + DDR, check magic constant, reset        *)
(* ===================================================================== *)

Definition byte_of_Z (z : Z) : Byte.byte :=
  match Byte.of_N (Z.to_N z) with
  | Some b => b
  | None => Byte.x00
  end.

(** [v.to_bytes(4, byteorder="big")]. *)
Definition to_bytes_4_big (v : Z) : outcome (list Byte.byte) :=
  if (0 <=? v) && (v <? 2 ^ 32) then
    Done [ byte_of_Z (Z.land (Z.shiftr v 24) 0xFF);
           byte_of_Z (Z.land (Z.shiftr v 16) 0xFF);
           byte_of_Z (Z.land (Z.shiftr v 8) 0xFF);
           byte_of_Z (Z.land v 0xFF) ]
  else Raised OverflowError.

(** [b.decode("latin-1", errors="ignore")]: byte [k] is code point [k],
    and a Rocq [string] holds exactly the code points below 256. *)
Definition decode_latin1 (b : list Byte.byte) : string := string_of_list_byte b.

(** [str.isspace] on the code points below 256. *)
Definition isspace (c : ascii) : bool :=
  let n := N_of_ascii c in
  (((9 <=? n) && (n <=? 13)) || ((28 <=? n) && (n <=? 32))
   || (n =? 133) || (n =? 160))%N.

Fixpoint lstrip (l : list ascii) : list ascii :=
  match l with
  | [] => []
  | c :: l' => if isspace c then lstrip l' else l
  end.

(** [s.strip()]. *)
Definition strip (s : string) : string :=
  string_of_list_ascii (rev (lstrip (rev (lstrip (list_ascii_of_string s))))).

(** The expected identity: A-with-ring (code point 0xC5), then [ABC]. *)
Definition expected_magic : string := String (ascii_of_N 0xC5) "ABC".

Definition identity_warning (magic_str : string) : list msg :=
  [ UnrecognizedConstant magic_str;
    Text "Assuming default Red Pitaya overlay (ring-down mode). Continuing." ].

(** [raw_const.to_bytes(4, byteorder="big").decode("latin-1",
    errors="ignore").strip()]. *)
Definition decode_identity (raw_const : Z) : outcome string :=
  let? b := to_bytes_4_big raw_const in
  Done (strip (decode_latin1 b)).

(** Lines 149 to 158. *)
Definition identity_check : M string :=
  print (Text "Checking FPGA identity constant...") ;;
  raw_const <- read32 MLA_CONST_REG ;;
  magic_str <- lift (decode_identity raw_const) ;;
  (if negb (magic_str =? expected_magic)%string
   then for_each (identity_warning magic_str) print
   else ret tt) ;;
  print (IdentityConfirmed magic_str) ;;
  ret magic_str.

(** Lines 137 to 146. *)
Definition map_regions (cfg : Config) : M unit :=
  print (Text "Mapping FPGA memory regions...") ;;
  try_except
    (mmio_axil (AXIL_BASE cfg) (AXIL_SIZE cfg) ;;
     mmio_ram (RAM_BASE cfg) (RAM_SIZE cfg))
    (fun e => print (MapFailed e) ;; raise (SystemExit 1)) ;;
  print (Text "Memory mapping OK.").

(** Lines 161 to 180. *)
Definition reset_device : M unit :=
  print (Text "Resetting device and clearing configuration...") ;;
  write32 SOFT_RESET_REG 1 ;;
  write32 WRITER_MIN_ADDRESS_REG 0 ;;
  write32 WRITER_NUM_BURSTS_REG 0 ;;
  write32 RELAXATION_TIME_REG 0 ;;
  write32 EXCITATION_TIME_REG 0 ;;
  write32 RELAY_ENABLED_REG 0 ;;
  write32 READER_CONTINUOUS_MODE_REG 0 ;;
  write32 WRITER_CONTINUOUS_MODE_REG 0 ;;
  sleep lit_0_5 ;;
  print (Text "Device reset complete. Hardware is in a known idle state.").

(* ===================================================================== *)
(** ** STEP 6 and STEP 7 - waveform, RAM layout, write to DDR          *)
(* ===================================================================== *)

(** Lines 186 to 195; the result is [len(waveform)].  The samples are
    int16, so [waveform.tobytes()] has two bytes per sample. *)
Definition generate_waveform (cfg : Config) : M Z :=
  print (Text "Generating excitation waveform...") ;;
  print (Text "Generating excitation waveform...") ;;
  n <- lift (N cfg) ;;
  let waveform_samples := waveform_len n in
  ram_write 0 (WaveformBytes (2 * waveform_samples)) ;;
  ret waveform_samples.

(** Lines 197 to 257: the layout computation with its progress prints. *)
Definition layout_phase (cfg : Config) (waveform_samples : Z) : M Layout :=
  print (WaveformGenerated waveform_samples) ;;
  print (Text "Computing RAM layout...") ;;
  wbursts <- lift (waveform_bursts cfg waveform_samples) ;;
  print (WaveformOccupied (waveform_bytes cfg waveform_samples) wbursts) ;;
  print (CaptureAbsolute (writer_offset cfg waveform_samples)) ;;
  print (CaptureRelative (writer_offset_rel cfg waveform_samples)) ;;
  rs <- lift (relax_samples cfg) ;;
  nb <- lift (writer_num_bursts cfg rs) ;;
  print (RelaxAligned (relax_samples_aligned rs)) ;;
  print (WriterBursts nb) ;;
  print (CaptureSize (true_writer_bytes cfg nb)) ;;
  ret {| l_waveform_samples      := waveform_samples;
         l_waveform_bytes        := waveform_bytes cfg waveform_samples;
         l_waveform_bursts       := wbursts;
         l_writer_offset         := writer_offset cfg waveform_samples;
         l_writer_offset_rel     := writer_offset_rel cfg waveform_samples;
         l_relax_samples         := rs;
         l_relax_samples_aligned := relax_samples_aligned rs;
         l_writer_num_bursts     := nb;
         l_true_writer_bytes     := true_writer_bytes cfg nb |}.

(** [wave_bytes()]: calling the bytes object. *)
Definition call_wave_bytes : M payload := raise TypeError.

(** Lines 263 to 272. *)
Definition write_waveform (waveform_samples : Z) : M unit :=
  print (Text "Writing excitation waveform to DDR...") ;;
  let len_wave_bytes := 2 * waveform_samples in
  let chunk_size := 1024 * 1024 in
  for_each (py_range 0 len_wave_bytes chunk_size)
    (fun i => called <- call_wave_bytes ;;
              ram_write i (WaveformBytes (Z.min chunk_size (len_wave_bytes - i)))) ;;
  print (Text "Waveform written.").

(* ===================================================================== *)
(** ** STEP 8 - Configure FPGA reader/writer and timing registers      *)
(* ===================================================================== *)

(** Lines 278 to 317. *)
Definition configure (cfg : Config) (L : Layout) : M unit :=
  print (Text "Configuring FPGA Ring-Down registers...") ;;
  write32 WRITER_MIN_ADDRESS_REG (RAM_BASE cfg) ;;
  write32 WRITER_NUM_BURSTS_REG (l_waveform_bursts L) ;;
  write32 READER_MIN_ADDRESS_REG (l_writer_offset L) ;;
  write32 READER_NUM_BURSTS_REG (l_writer_num_bursts L) ;;
  write32 EXCITATION_TIME_REG (EXCITATION_TIME_US cfg) ;;
  write32 RELAXATION_TIME_REG (RELAXATION_TIME_US cfg) ;;
  write32 RELAY_ENABLED_REG 1 ;;
  write32 READER_CONTINUOUS_MODE_REG 0 ;;
  write32 WRITER_CONTINUOUS_MODE_REG 0 ;;
  write32 TRIGGER_ENABLED_REG 0 ;;
  print (Text "FPGA configuration complete.") ;;
  print (Text "Ready to begin ring-down measurement.").

(** Lines 319 to 334. *)
Definition run_measurement (cfg : Config) (waveform_samples : Z) : M unit :=
  emit EvInput ;;
  write32 SOFT_RESET_REG 0 ;;
  print (Text "Measurement started. FPGA running...") ;;
  excitation <- lift (mul_int_float (EXCITATION_TIME_US cfg) lit_1e_6) ;;
  sleep excitation ;;
  ram_write 0 (ZeroBytes (2 * waveform_samples)) ;;
  relaxation <- lift (mul_int_float (RELAXATION_TIME_US cfg) lit_1e_6) ;;
  sleep relaxation ;;
  print (Text "Assuming ring-down capture complete.").

(* ===================================================================== *)
(** ** STEP 10 - Read captured ring-down from DDR                      *)
(* ===================================================================== *)

(** The newline that starts two of the printed lines. *)
Definition nl : string := String (ascii_of_N 10) EmptyString.

Definition OUT_RAW : string := "ringdown_data.raw".
Definition OUT_META : string := "ringdown_data.json".

(** One iteration of the extraction loop (lines 350 to 361); [ram_size]
    is the size [ram_mmio] was mapped with. *)
Definition extract_chunk (ram_size writer_offset_rel bytes_to_read chunk_size : Z)
  (offset bytes_read : Z) : M Z :=
  let read_size := Z.min chunk_size (bytes_to_read - offset) in
  chunk <- ram_read ram_size (writer_offset_rel + offset) read_size ;;
  emit (EvFileWrite chunk) ;;
  let bytes_read := bytes_read + read_size in
  print (Progress bytes_read bytes_to_read) ;;
  ret bytes_read.

(** Lines 343 to 361; the result is the final [bytes_read]. *)
Definition extract (ram_size writer_offset_rel true_writer_bytes chunk_size : Z)
  : M Z :=
  let bytes_to_read := true_writer_bytes in
  emit (EvOpen OUT_RAW) ;;
  for_fold (py_range 0 bytes_to_read chunk_size)
           (extract_chunk ram_size writer_offset_rel bytes_to_read chunk_size) 0.

(* ===================================================================== *)
(** ** STEP 11 and STEP 12 - metadata, final reset and cleanup         *)
(* ===================================================================== *)

Definition write_metadata (cfg : Config) (L : Layout) : M unit :=
  print (Text "Writing metadata to 'ringdown_data.json'...") ;;
  emit (EvOpen OUT_META) ;;
  emit (EvJsonDump
          {| md_excitation_time_us       := EXCITATION_TIME_US cfg;
             md_relaxation_time_us       := RELAXATION_TIME_US cfg;
             md_sample_rate_hz           := SAMPLE_RATE cfg;
             md_waveform_samples         := l_waveform_samples L;
             md_waveform_bytes           := l_waveform_bytes L;
             md_waveform_bursts          := l_waveform_bursts L;
             md_capture_bytes            := l_true_writer_bytes L;
             md_capture_bursts           := l_writer_num_bursts L;
             md_capture_start_offset_rel := l_writer_offset_rel L;
             md_relax_samples_aligned    := l_relax_samples_aligned L |}) ;;
  print (Text "Metadata saved successfully.").

Definition shutdown : M unit :=
  print (Text "Resetting FPGA to safe idle state...") ;;
  write32 SOFT_RESET_REG 1 ;;
  write32 RELAY_ENABLED_REG 0 ;;
  write32 READER_CONTINUOUS_MODE_REG 0 ;;
  write32 WRITER_CONTINUOUS_MODE_REG 0 ;;
  sleep lit_0_2 ;;
  emit EvCloseRam ;;
  emit EvCloseAxil ;;
  print (Text (nl ++ "Ring-down acquisition COMPLETE.")%string) ;;
  print (Text "Raw data saved to:  ringdown_data.raw") ;;
  print (Text "Metadata saved to:   ringdown_data.json") ;;
  print (Text "FPGA interface closed and system is safe.").

(* ===================================================================== *)
(** ** The script                                                      *)
(* ===================================================================== *)

(** Everything after the identity check. *)
Definition after_identity (cfg : Config) : M unit :=
  reset_device ;;
  waveform_samples <- generate_waveform cfg ;;
  L <- layout_phase cfg waveform_samples ;;
  write_waveform waveform_samples ;;
  configure cfg L ;;
  run_measurement cfg waveform_samples ;;
  print (Text "Reading captured data from DDR and saving to 'ringdown_data.raw'...") ;;
  bytes_read <- extract (RAM_SIZE cfg) (l_writer_offset_rel L)
                        (l_true_writer_bytes L) (8 * 1024 * 1024) ;;
  print (Text (nl ++ "Ring-down data saved successfully.")%string) ;;
  write_metadata cfg L ;;
  shutdown.

Definition main (cfg : Config) : M unit :=
  map_regions cfg ;;
  magic_str <- identity_check ;;
  after_identity cfg.

(* ===================================================================== *)
(** ** Reading floats as exact numbers                                 *)
(* ===================================================================== *)

(** A finite float [x] is the rational [fnum x / fden x]. *)
Definition fnum (x : float) : Z :=
  match x with
  | S754_finite s m e => (if s then -1 else 1) * (Zpos m * 2 ^ Z.max e 0)
  | _ => 0
  end.

Definition fden (x : float) : Z :=
  match x with
  | S754_finite _ _ e => 2 ^ Z.max (- e) 0
  | _ => 1
  end.

(** [math.ceil(x)], used to state the count as the specification words it. *)
Definition ceil_of_float (x : float) : outcome Z :=
  match x with
  | S754_zero _ => Done 0
  | S754_infinity _ => Raised OverflowError
  | S754_nan => Raised ValueError
  | S754_finite s m e =>
      match e with
      | Zneg p =>
          let q := Z.shiftr (Zpos m) (Zpos p) in
          let exact := Z.shiftl q (Zpos p) =? Zpos m in
          Done (if s then - q else if exact then q else q + 1)
      | _ => Done (if s then - Z.shiftl (Zpos m) e else Z.shiftl (Zpos m) e)
      end
  end.

(** The raw relax-sample count in the specification's words:
    [ceil(relaxationMicroseconds * 1e-6 * sampleRateHz)]. *)
Definition spec_raw_relax_samples (cfg : Config) : outcome Z :=
  let? y := relax_product cfg in
  ceil_of_float y.

(* ===================================================================== *)
(** ** Reading traces                                                  *)
(* ===================================================================== *)

(** Whether an event is a register or buffer access. *)
Definition touches_hardware (e : event) : bool :=
  match e with
  | EvRead32 _ _ | EvWrite32 _ _ | EvRamWrite _ _ | EvRamRead _ _ => true
  | _ => false
  end.

Definition is_print (e : event) : bool :=
  match e with
  | EvPrint _ => true
  | _ => false
  end.

(** The register writes among the events, in order. *)
Definition reg_writes (evs : list event) : list (Z * Z) :=
  flat_map (fun e => match e with
                     | EvWrite32 reg v => [(reg, v)]
                     | _ => []
                     end) evs.

(** The buffer reads among the events, in order. *)
Definition ram_reads (evs : list event) : list (Z * Z) :=
  flat_map (fun e => match e with
                     | EvRamRead off len => [(off, len)]
                     | _ => []
                     end) evs.

(** The bytes written to the output file, in order. *)
Definition file_bytes (evs : list event) : list Byte.byte :=
  flat_map (fun e => match e with
                     | EvFileWrite chunk => chunk
                     | _ => []
                     end) evs.

(** Events put in front of a result. *)
Definition prepend {A} (evs : list event) (r : outcome A * world * list event)
  : outcome A * world * list event :=
  match r with
  | (a, w, e) => (a, w, evs ++ e)
  end.

(* ===================================================================== *)
(** ** Observations and concrete inputs used in the statements         *)
(* ===================================================================== *)

(** Configurations used as concrete inputs below. *)
Definition config_with_relaxation (us rate : Z) : Config :=
  {| DURATION_S         := DURATION_S default_config;
     EXCITATION_TIME_US := EXCITATION_TIME_US default_config;
     RELAXATION_TIME_US := us;
     SAMPLE_RATE        := rate;
     AXIL_BASE          := AXIL_BASE default_config;
     AXIL_SIZE          := AXIL_SIZE default_config;
     RAM_BASE           := RAM_BASE default_config;
     RAM_SIZE           := RAM_SIZE default_config;
     SAMPLE_SIZE        := SAMPLE_SIZE default_config;
     BURST_BYTES        := BURST_BYTES default_config |}.

(** The world after [nr] more register reads and [nc] more clock reads. *)
Definition advance (nr nc : nat) (w : world) : world :=
  mkWorld (axil_maps w) (ram_maps w) (reg_in w) (nr + reg_pos w)
          (clock_in w) (nc + clock_pos w) (ddr w).

(** Poll iteration [j] (from 0) of a call started in [w] makes four
    register reads; [poll_reg w j i] is the value of the [i]-th one. *)
Definition poll_reg (w : world) (j i : nat) : Z :=
  reg_in w (i + 4 * j + reg_pos w).

(** The reading [t0] taken on entry, and the reading taken in iteration
    [j] for the timeout test. *)
Definition entry_clock (w : world) : float := clock_in w (clock_pos w).
Definition poll_clock (w : world) (j : nat) : float :=
  clock_in w (S j + clock_pos w).

(** Both done flags read as set in iteration [j]. *)
Definition both_done (w : world) (j : nat) : bool :=
  truthy (Z.land (poll_reg w j 0) 0x1) && truthy (Z.land (poll_reg w j 1) 0x1).

(** The timeout test of iteration [j] fires. *)
Definition expired (w : world) (timeout_s : float) (j : nat) : bool :=
  fgt (fsub (poll_clock w j) (entry_clock w)) timeout_s.

(** The four register reads of iteration [j]. *)
Definition poll_reads (w : world) (j : nat) : list event :=
  [ EvRead32 WRITER_DONE_REG (poll_reg w j 0);
    EvRead32 READER_DONE_REG (poll_reg w j 1);
    EvRead32 WRITER_WRITE_PTR_REG (poll_reg w j 2);
    EvRead32 READER_READ_PTR_REG (poll_reg w j 3) ].

(** The events of the iterations [i], ..., [i + d - 1] when none of them
    ends the loop: four reads and one sleep each. *)
Definition idle_polls (w : world) (poll_interval : float) (i d : nat)
  : list event :=
  flat_map (fun j => poll_reads w j ++ [EvSleep poll_interval]) (seq i d).

Definition two_poll_world : world :=
  mkWorld true true
          (fun n => nth n [1; 0; 100; 200; 3; 1; 4096; 8192] 0)
          0
          (fun n => match n with 0%nat => f64 10 0 | _ => f64 11 0 end)
          0
          (fun _ => Byte.x00).

(** The chunks handed to [f.write], in order. *)
Definition file_chunks (evs : list event) : list (list Byte.byte) :=
  flat_map (fun e => match e with
                     | EvFileWrite chunk => [chunk]
                     | _ => []
                     end) evs.

(** The reads that the loop is to make: one per offset of the range. *)
Definition chunk_reads (rel bytes_to_read chunk_size : Z) (offsets : list Z)
  : list (Z * Z) :=
  map (fun offset => (rel + offset, Z.min chunk_size (bytes_to_read - offset)))
      offsets.

Definition counting_ddr : Z -> Byte.byte := fun k => byte_of_Z (k mod 256).

(** The buffer writes among the events, in order. *)
Definition ram_writes (evs : list event) : list (Z * payload) :=
  flat_map (fun e => match e with
                     | EvRamWrite off data => [(off, data)]
                     | _ => []
                     end) evs.

(** The register writes of the reset phase (lines 164 to 177). *)
Definition reset_writes : list (Z * Z) :=
  [ (SOFT_RESET_REG, 1);
    (WRITER_MIN_ADDRESS_REG, 0);
    (WRITER_NUM_BURSTS_REG, 0);
    (RELAXATION_TIME_REG, 0);
    (EXCITATION_TIME_REG, 0);
    (RELAY_ENABLED_REG, 0);
    (READER_CONTINUOUS_MODE_REG, 0);
    (WRITER_CONTINUOUS_MODE_REG, 0) ].

(** The events of a successful mapping. *)
Definition mapping_events (cfg : Config) : list event :=
  [ EvPrint (Text "Mapping FPGA memory regions...");
    EvMap (AXIL_BASE cfg) (AXIL_SIZE cfg);
    EvMap (RAM_BASE cfg) (RAM_SIZE cfg);
    EvPrint (Text "Memory mapping OK.") ].

(** The events of the identity check on the register value [v], decoded
    as [magic_str], with [warning] standing for the lines printed between
    the read and the confirmation. *)
Definition identity_events (v : Z) (magic_str : string) (warning : list event)
  : list event :=
  [ EvPrint (Text "Checking FPGA identity constant...");
    EvRead32 MLA_CONST_REG v ]
  ++ warning ++ [ EvPrint (IdentityConfirmed magic_str) ].

(** The events of the reset phase. *)
Definition reset_events : list event :=
  [ EvPrint (Text "Resetting device and clearing configuration...") ]
  ++ map (fun rv => EvWrite32 (fst rv) (snd rv)) reset_writes
  ++ [ EvSleep lit_0_5;
       EvPrint (Text "Device reset complete. Hardware is in a known idle state.") ].

(** A world in which both regions map, every register reads [v], the
    clock stands still and the DDR holds zeros. *)
Definition plain_world (v : Z) : world :=
  mkWorld true true (fun _ => v) 0 (fun _ => lit_0_5) 0 (fun _ => Byte.x00).

(* ===================================================================== *)
(** ** Further observations and concrete inputs                        *)
(* ===================================================================== *)

(** Whether a float is below zero. *)
Definition is_negative (x : float) : bool :=
  match x with
  | S754_finite true _ _ | S754_infinity true => true
  | _ => false
  end.

(** The progress reports among the events: [(bytes_read, bytes_to_read)]. *)
Definition progress_reports (evs : list event) : list (Z * Z) :=
  flat_map (fun e => match e with
                     | EvPrint (Progress a b) => [(a, b)]
                     | _ => []
                     end) evs.

(** Reads that follow one another without gap or overlap from [start]. *)
Fixpoint contiguous_from (start : Z) (reads : list (Z * Z)) : Prop :=
  match reads with
  | [] => True
  | (offset, length) :: rest =>
      offset = start /\ contiguous_from (start + length) rest
  end.

(** Numbers that grow strictly, all above [low]. *)
Fixpoint increasing_from (low : Z) (l : list Z) : Prop :=
  match l with
  | [] => True
  | x :: rest => low < x /\ increasing_from x rest
  end.

(** Lines 278 to 430: everything after the waveform has been written. *)
Definition acquire (cfg : Config) (waveform_samples : Z) (L : Layout) : M unit :=
  configure cfg L ;;
  run_measurement cfg waveform_samples ;;
  print (Text "Reading captured data from DDR and saving to 'ringdown_data.raw'...") ;;
  bytes_read <- extract (RAM_SIZE cfg) (l_writer_offset_rel L)
                        (l_true_writer_bytes L) (8 * 1024 * 1024) ;;
  print (Text (nl ++ "Ring-down data saved successfully.")%string) ;;
  write_metadata cfg L ;;
  shutdown.

(** The register writes of STEP 8 (lines 284 to 314). *)
Definition configure_writes (cfg : Config) (L : Layout) : list (Z * Z) :=
  [ (WRITER_MIN_ADDRESS_REG, RAM_BASE cfg);
    (WRITER_NUM_BURSTS_REG, l_waveform_bursts L);
    (READER_MIN_ADDRESS_REG, l_writer_offset L);
    (READER_NUM_BURSTS_REG, l_writer_num_bursts L);
    (EXCITATION_TIME_REG, EXCITATION_TIME_US cfg);
    (RELAXATION_TIME_REG, RELAXATION_TIME_US cfg);
    (RELAY_ENABLED_REG, 1);
    (READER_CONTINUOUS_MODE_REG, 0);
    (WRITER_CONTINUOUS_MODE_REG, 0);
    (TRIGGER_ENABLED_REG, 0) ].

(** The register writes of STEP 12 (lines 413 to 418). *)
Definition shutdown_writes : list (Z * Z) :=
  [ (SOFT_RESET_REG, 1);
    (RELAY_ENABLED_REG, 0);
    (READER_CONTINUOUS_MODE_REG, 0);
    (WRITER_CONTINUOUS_MODE_REG, 0) ].

(** Whether an event closes a mapping. *)
Definition is_close (e : event) : bool :=
  match e with
  | EvCloseRam | EvCloseAxil => true
  | _ => false
  end.

(** The metadata records dumped, in order. *)
Definition json_dumps (evs : list event) : list Metadata :=
  flat_map (fun e => match e with
                     | EvJsonDump m => [m]
                     | _ => []
                     end) evs.

(** The hardware accesses among the events, in order. *)
Definition hardware_accesses (evs : list event) : list event :=
  filter touches_hardware evs.

(** The default configuration with a waveform duration of [0.0] and a
    relaxation time of one microsecond. *)
Definition empty_waveform_config : Config :=
  {| DURATION_S         := f64 0 0;
     EXCITATION_TIME_US := EXCITATION_TIME_US default_config;
     RELAXATION_TIME_US := 1;
     SAMPLE_RATE        := SAMPLE_RATE default_config;
     AXIL_BASE          := AXIL_BASE default_config;
     AXIL_SIZE          := AXIL_SIZE default_config;
     RAM_BASE           := RAM_BASE default_config;
     RAM_SIZE           := RAM_SIZE default_config;
     SAMPLE_SIZE        := SAMPLE_SIZE default_config;
     BURST_BYTES        := BURST_BYTES default_config |}.

(** The register reads among the events, in order. *)
Definition reg_reads (evs : list event) : list (Z * Z) :=
  flat_map (fun e => match e with
                     | EvRead32 reg v => [(reg, v)]
                     | _ => []
                     end) evs.

Definition two_poll_world_high_bits : world :=
  mkWorld true true
          (fun n => nth n [3; 2; 100; 200; 0xFFFFFFFF; 0x80000001; 4096; 8192] 0)
          0
          (fun n => match n with 0%nat => f64 10 0 | _ => f64 11 0 end)
          0
          (fun _ => Byte.x00).

(** What the extraction loop emits: reads, file writes and progress. *)
Definition extract_kind (e : event) : bool :=
  match e with
  | EvRamRead _ _ | EvFileWrite _ | EvPrint _ => true
  | _ => false
  end.

(** The events of STEP 8, of a measurement whose two sleep lengths are
    [ex] and [rx], of STEP 11 and of STEP 12. *)
Definition configure_events (cfg : Config) (L : Layout) : list event :=
  [ EvPrint (Text "Configuring FPGA Ring-Down registers...") ]
  ++ map (fun rv => EvWrite32 (fst rv) (snd rv)) (configure_writes cfg L)
  ++ [ EvPrint (Text "FPGA configuration complete.");
       EvPrint (Text "Ready to begin ring-down measurement.") ].

Definition release_events : list event :=
  [ EvInput; EvWrite32 SOFT_RESET_REG 0;
    EvPrint (Text "Measurement started. FPGA running...") ].

Definition shutdown_events : list event :=
  [ EvPrint (Text "Resetting FPGA to safe idle state...") ]
  ++ map (fun rv => EvWrite32 (fst rv) (snd rv)) shutdown_writes
  ++ [ EvSleep lit_0_2; EvCloseRam; EvCloseAxil;
       EvPrint (Text (nl ++ "Ring-down acquisition COMPLETE.")%string);
       EvPrint (Text "Raw data saved to:  ringdown_data.raw");
       EvPrint (Text "Metadata saved to:   ringdown_data.json");
       EvPrint (Text "FPGA interface closed and system is safe.") ].

Definition metadata_of (cfg : Config) (L : Layout) : Metadata :=
  {| md_excitation_time_us       := EXCITATION_TIME_US cfg;
     md_relaxation_time_us       := RELAXATION_TIME_US cfg;
     md_sample_rate_hz           := SAMPLE_RATE cfg;
     md_waveform_samples         := l_waveform_samples L;
     md_waveform_bytes           := l_waveform_bytes L;
     md_waveform_bursts          := l_waveform_bursts L;
     md_capture_bytes            := l_true_writer_bytes L;
     md_capture_bursts           := l_writer_num_bursts L;
     md_capture_start_offset_rel := l_writer_offset_rel L;
     md_relax_samples_aligned    := l_relax_samples_aligned L |}.

Definition metadata_events (cfg : Config) (L : Layout) : list event :=
  [ EvPrint (Text "Writing metadata to 'ringdown_data.json'...");
    EvOpen OUT_META;
    EvJsonDump (metadata_of cfg L);
    EvPrint (Text "Metadata saved successfully.") ].

(** The events of lines 186 to 195 for a waveform of [ws] samples. *)
Definition generate_events (ws : Z) : list event :=
  [ EvPrint (Text "Generating excitation waveform...");
    EvPrint (Text "Generating excitation waveform...");
    EvRamWrite 0 (WaveformBytes (2 * ws)) ].

Definition small_layout : Layout :=
  mkLayout 0 0 0 16777216 0 125 128 2 256.

(** The events of lines 319 to 334 when the two sleeps last [ex] and [rx]
    seconds. *)
Definition run_events (ws : Z) (ex rx : float) : list event :=
  release_events
  ++ [ EvSleep ex; EvRamWrite 0 (ZeroBytes (2 * ws)); EvSleep rx;
       EvPrint (Text "Assuming ring-down capture complete.") ].

(** The events of lines 278 to 430 when they run to the end, [loop] being
    the events of the extraction loop. *)
Definition acquire_events (cfg : Config) (ws : Z) (L : Layout)
  (ex rx : float) (loop : list event) : list event :=
  configure_events cfg L
  ++ run_events ws ex rx
  ++ [ EvPrint (Text "Reading captured data from DDR and saving to 'ringdown_data.raw'...");
       EvOpen OUT_RAW ]
  ++ loop
  ++ [ EvPrint (Text (nl ++ "Ring-down data saved successfully.")%string) ]
  ++ metadata_events cfg L
  ++ shutdown_events.

(** An event that is neither a register read nor the closing of a
    mapping. *)
Definition calm (e : event) : bool :=
  match e with
  | EvRead32 _ _ | EvCloseRam | EvCloseAxil => false
  | _ => true
  end.

(** A world in which the flags never both read as set: the clock reads
    1000 on entry, 1010 in the first iteration and 1031 afterwards. *)
Definition timeout_world : world :=
  mkWorld true true
          (fun n => nth n [1; 0; 11; 22; 0; 1; 33; 44] 0)
          0
          (fun n => match n with
                    | 0%nat => f64 1000 0
                    | 1%nat => f64 1010 0
                    | _ => f64 1031 0
                    end)
          0
          (fun _ => Byte.x00).

(** A world in which the flags read as clear in the first iteration, whose
    clock reading is exactly 30 seconds after entry, and as set in the
    second. *)
Definition late_world : world :=
  mkWorld true true
          (fun n => nth n [0; 0; 11; 22; 1; 1; 33; 44] 0)
          0
          (fun n => match n with
                    | 0%nat => f64 1000 0
                    | _ => f64 1030 0
                    end)
          0
          (fun _ => Byte.x00).

(** The earliest time at which iteration [j + 1] can take place: the clock
    reading of iteration [j] plus the sleep between the two. *)
Definition earliest_next_poll (w : world) (poll_interval : float) (j : nat)
  : float :=
  fadd (poll_clock w j) poll_interval.

(** A configuration that has the sample size, burst size, relaxation
    time, sample rate and RAM base of the default one and differs from it
    in every other field. *)
Definition other_surroundings_config : Config :=
  {| DURATION_S         := f64 2 0;
     EXCITATION_TIME_US := 7;
     RELAXATION_TIME_US := RELAXATION_TIME_US default_config;
     SAMPLE_RATE        := SAMPLE_RATE default_config;
     AXIL_BASE          := 0x43C00000;
     AXIL_SIZE          := 0x10000;
     RAM_BASE           := RAM_BASE default_config;
     RAM_SIZE           := 1024;
     SAMPLE_SIZE        := SAMPLE_SIZE default_config;
     BURST_BYTES        := BURST_BYTES default_config |}.

(** The default configuration with an excitation time of -300
    microseconds. *)
Definition negative_excitation_config : Config :=
  {| DURATION_S         := DURATION_S default_config;
     EXCITATION_TIME_US := -300;
     RELAXATION_TIME_US := RELAXATION_TIME_US default_config;
     SAMPLE_RATE        := SAMPLE_RATE default_config;
     AXIL_BASE          := AXIL_BASE default_config;
     AXIL_SIZE          := AXIL_SIZE default_config;
     RAM_BASE           := RAM_BASE default_config;
     RAM_SIZE           := RAM_SIZE default_config;
     SAMPLE_SIZE        := SAMPLE_SIZE default_config;
     BURST_BYTES        := BURST_BYTES default_config |}.
(* ===================================================================== *)
(** ** Properties of the layout arithmetic                             *)
(* ===================================================================== *)

Lemma int_of_float_quot (x : float) (r : Z) :
  int_of_float x = Done r -> r = Z.quot (fnum x) (fden x).
Proof.
  destruct x as [s | s | | s m e]; unfold int_of_float, fnum, fden;
    try discriminate.
  - intros H; inversion H; reflexivity.
  - intros H; inversion H; subst; clear H.
    assert (Hm : 0 < Zpos m) by lia.
    destruct e as [| p | p].
    + rewrite Z.shiftl_0_r. change (2 ^ Z.max (- 0) 0) with 1.
      change (2 ^ Z.max 0 0) with 1.
      rewrite Z.quot_1_r. destruct s; lia.
    + replace (Z.max (- Zpos p) 0) with 0 by lia.
      replace (Z.max (Zpos p) 0) with (Zpos p) by lia.
      change (2 ^ 0) with 1. rewrite Z.quot_1_r.
      rewrite Z.shiftl_mul_pow2 by lia.
      generalize (Zpos m * 2 ^ Zpos p). intros t. destruct s; lia.
    + replace (Z.max (- Zneg p) 0) with (Zpos p) by lia.
      replace (Z.max (Zneg p) 0) with 0 by lia.
      change (2 ^ 0) with 1. rewrite Z.mul_1_r.
      rewrite Z.shiftr_div_pow2 by lia.
      assert (Hp : 0 < 2 ^ Zpos p) by (apply Z.pow_pos_nonneg; lia).
      destruct s.
      * replace (-1 * Zpos m) with (- Zpos m) by lia.
        rewrite Z.quot_opp_l by lia.
        rewrite Z.quot_div_nonneg by lia. reflexivity.
      * rewrite Z.mul_1_l. rewrite Z.quot_div_nonneg by lia. reflexivity.
Qed.

Lemma pad_relax_bounds (r : Z) : 0 <= pad_relax r < 64.
Proof. unfold pad_relax. apply Z.mod_pos_bound. lia. Qed.

Lemma relax_samples_aligned_mod (r : Z) : relax_samples_aligned r mod 64 = 0.
Proof.
  unfold relax_samples_aligned, pad_relax.
  rewrite Z.add_mod_idemp_r by lia.
  replace (r + - r) with 0 by lia. reflexivity.
Qed.

Lemma relax_samples_aligned_eq (r : Z) :
  relax_samples_aligned r = 64 * (relax_samples_aligned r / 64).
Proof.
  pose proof (Z.div_mod (relax_samples_aligned r) 64 ltac:(lia)) as H.
  rewrite relax_samples_aligned_mod in H. lia.
Qed.

(** The padded waveform length is a multiple of 64 bytes, whatever the
    sample size. *)
Lemma waveform_bytes_mod_64 (cfg : Config) (ws : Z) :
  waveform_bytes cfg ws mod 64 = 0.
Proof.
  unfold waveform_bytes, pad.
  set (b := ws * SAMPLE_SIZE cfg).
  destruct (Z.gtb_spec ((- b) mod 64) 0) as [Hgt | Hle].
  - rewrite Z.add_mod_idemp_r by lia.
    replace (b + - b) with 0 by lia. reflexivity.
  - pose proof (Z.mod_pos_bound (- b) 64 ltac:(lia)) as Hb.
    assert (H0 : (- b) mod 64 = 0) by lia.
    apply Z.mod_divide in H0; [| lia].
    apply Z.mod_divide; [lia |].
    destruct H0 as [k Hk]. exists (- k). lia.
Qed.

(** With 2-byte samples the padded waveform length is half a burst past a
    multiple of 128 whenever the sample count modulo 64 lies in 1..32. *)
Lemma waveform_bytes_half_burst (cfg : Config) (ws : Z) :
  SAMPLE_SIZE cfg = 2 -> 1 <= ws mod 64 <= 32 ->
  waveform_bytes cfg ws mod 128 = 64.
Proof.
  intros Hs Hr. unfold waveform_bytes, pad. rewrite Hs.
  destruct (Z.gtb_spec ((- (ws * 2)) mod 64) 0) as [Hgt | Hle];
    Z.div_mod_to_equations; lia.
Qed.

(** The layout phase of the script computes [plan], leaves the world as
    it was and only prints. *)
Lemma layout_phase_plan (cfg : Config) (ws : Z) (w : world) :
  exists evs,
    layout_phase cfg ws w = (plan cfg ws, w, evs) /\
    forallb is_print evs = true /\
    forall w', layout_phase cfg ws w' = (plan cfg ws, w', evs).
Proof.
  unfold layout_phase, plan, bind, lift, print, emit, ret, obind.
  destruct (waveform_bursts cfg ws) as [wb | e1]; simpl.
  2: eexists; repeat split; reflexivity.
  destruct (relax_samples cfg) as [rs | e2]; simpl.
  2: eexists; repeat split; reflexivity.
  destruct (writer_num_bursts cfg rs) as [nb | e3]; simpl.
  2: eexists; repeat split; reflexivity.
  eexists; repeat split; reflexivity.
Qed.

(** The configuration of the worked example of the specification holds
    for every configuration that has its four values. *)
Lemma example_layout (cfg : Config) :
  RELAXATION_TIME_US cfg = 3000 -> SAMPLE_RATE cfg = 125000000 ->
  SAMPLE_SIZE cfg = 2 -> BURST_BYTES cfg = 128 ->
  relax_samples cfg = Done 375000 /\
  relax_samples_aligned 375000 = 375040 /\
  writer_num_bursts cfg 375000 = Done 5860 /\
  true_writer_bytes cfg 5860 = 750080.
Proof.
  destruct cfg; simpl; intros -> -> -> ->.
  repeat split; vm_compute; reflexivity.
Qed.

(** The only ways in which the layout computation can fail. *)
Lemma plan_failure_causes (cfg : Config) (ws : Z) (e : exn) :
  plan cfg ws = Raised e ->
  (BURST_BYTES cfg = 0 /\ e = ZeroDivisionError) \/ relax_samples cfg = Raised e.
Proof.
  unfold plan, waveform_bursts, writer_num_bursts, floordiv.
  destruct (Z.eqb_spec (BURST_BYTES cfg) 0) as [H0 | Hn]; simpl.
  - intros H; inversion H; left; split; [assumption | reflexivity].
  - destruct (relax_samples cfg) as [r | e']; simpl.
    + discriminate.
    + intros H; inversion H; right; reflexivity.
Qed.

(** C1, evaluated on the script's own configuration.  The script generates
    125000 samples; padding the 250000 bytes to a multiple of 64 bytes gives
    250048, which is 1953 bursts of 128 bytes plus 64 bytes.  So the padded
    waveform length and both capture start offsets are not multiples of
    128, and [waveform_bursts * BURST_BYTES] is 249984, not the padded
    length.  Only the capture byte length is burst aligned. *)
Theorem C1_default_waveform_region_misaligned :
  N default_config = Done 125000 /\
  exists L,
    plan default_config (waveform_len 125000) = Done L /\
    l_waveform_bytes L = 250048 /\
    l_waveform_bytes L mod 128 = 64 /\
    l_waveform_bursts L = 1953 /\
    l_waveform_bursts L * BURST_BYTES default_config = 249984 /\
    l_writer_offset L = RAM_BASE default_config + l_waveform_bytes L /\
    l_writer_offset L mod 128 = 64 /\
    l_writer_offset_rel L mod 128 = 64 /\
    l_true_writer_bytes L mod 128 = 0.
Proof.
  split; [vm_compute; reflexivity |].
  eexists. split; [vm_compute; reflexivity |].
  repeat split.
Qed.

(** The raw relax-sample count is the float product
    [(RELAXATION_TIME_US * 1e-6) * SAMPLE_RATE] truncated toward zero (the
    quotient [Z.quot] of its exact numerator by its exact denominator);
    the aligned count is the next multiple of 64 samples. *)
Lemma relax_samples_truncates (cfg : Config) (r : Z) :
  relax_samples cfg = Done r ->
  (exists y, relax_product cfg = Done y /\ r = Z.quot (fnum y) (fden y)) /\
  relax_samples_aligned r mod 64 = 0 /\
  r <= relax_samples_aligned r < r + 64.
Proof.
  intros Hr. split; [| split].
  - unfold relax_samples in Hr.
    destruct (relax_product cfg) as [y | e]; simpl in Hr; [| discriminate].
    exists y. split; [reflexivity |]. apply int_of_float_quot. exact Hr.
  - apply relax_samples_aligned_mod.
  - pose proof (pad_relax_bounds r). unfold relax_samples_aligned. lia.
Qed.

(** C2, evaluated at a relaxation time of 85 microseconds and the script's
    125 MHz.  The relaxation period holds exactly 85 * 125 = 10625 samples,
    which is also what rounding the product up gives, and 10625 padded to a
    multiple of 64 is 10688 samples, 21376 bytes.  The script computes the
    float product (85 * 1e-6) * 125000000, which is 10624.999999999998 and
    so below 10625, and truncates it with [int]: 10624 raw samples, already
    a multiple of 64, so that the capture is 21248 bytes and does not hold
    the 10625 samples of the relaxation period, against the source's own
    comments (total samples we want from the relaxation period, round up).
    On the script's own 3000 microseconds the product is exact and the
    figures of the claim hold: 375000 raw samples, 375040 aligned, 5860
    bursts, 750080 bytes. *)
Theorem C2_relax_samples_one_short :
  85 * 125000000 = 10625 * 1000000 /\
  spec_raw_relax_samples (config_with_relaxation 85 125000000) = Done 10625 /\
  relax_samples (config_with_relaxation 85 125000000) = Done 10624 /\
  (exists y,
     relax_product (config_with_relaxation 85 125000000) = Done y /\
     fnum y < 10625 * fden y /\
     10624 * fden y < fnum y) /\
  relax_samples_aligned 10624 = 10624 /\
  relax_samples_aligned 10625 = 10688 /\
  (exists L,
     plan (config_with_relaxation 85 125000000) 125000 = Done L /\
     l_relax_samples_aligned L = 10624 /\
     l_true_writer_bytes L = 21248 /\
     l_true_writer_bytes L
       < 10625 * SAMPLE_SIZE (config_with_relaxation 85 125000000)) /\
  relax_samples default_config = Done 375000 /\
  spec_raw_relax_samples default_config = Done 375000 /\
  relax_samples_aligned 375000 = 375040 /\
  writer_num_bursts default_config 375000 = Done 5860 /\
  true_writer_bytes default_config 5860 = 750080.
Proof.
  split; [reflexivity |].
  split; [vm_compute; reflexivity |].
  split; [vm_compute; reflexivity |].
  split.
  { eexists. split; [vm_compute; reflexivity |].
    split; vm_compute; reflexivity. }
  split; [vm_compute; reflexivity |].
  split; [vm_compute; reflexivity |].
  split.
  { eexists. split; [vm_compute; reflexivity |].
    repeat split. }
  repeat split; vm_compute; reflexivity.
Qed.

(** C3, the claim as stated fails: the layout computation returns a layout
    for an empty waveform, for a sample rate of zero, and for a capture
    region that ends beyond [RAM_SIZE]. *)
Lemma C3_counterexample :
  plan default_config 0
    = Done (mkLayout 0 0 0 16777216 0 375000 375040 5860 750080) /\
  SAMPLE_RATE (config_with_relaxation 3000 0) <= 0 /\
  plan (config_with_relaxation 3000 0) 125000
    = Done (mkLayout 125000 250048 1953 17027264 250048 0 0 0 0) /\
  plan (config_with_relaxation 30000 125000000) 125000
    = Done (mkLayout 125000 250048 1953 17027264 250048
                     3750000 3750016 58594 7500032) /\
  250048 + 7500032 > RAM_SIZE (config_with_relaxation 30000 125000000).
Proof.
  repeat split; vm_compute; try reflexivity; discriminate.
Qed.

(** C3, amended: the layout computation validates nothing and has no
    LayoutError.  Whenever the burst size is not zero and the relaxation
    product converts to an integer, it returns a layout, in the pure
    computation and in the script, whatever the waveform sample count, the
    sign of the sample rate and the size of the memory region. *)
Theorem C3_plan_never_rejects (cfg : Config) (ws r : Z) :
  BURST_BYTES cfg <> 0 ->
  relax_samples cfg = Done r ->
  exists L,
    plan cfg ws = Done L /\
    l_waveform_samples L = ws /\
    l_relax_samples L = r /\
    forall w, fst (fst (layout_phase cfg ws w)) = Done L.
Proof.
  intros Hb Hr.
  assert (Hp : exists L, plan cfg ws = Done L /\ l_waveform_samples L = ws
                         /\ l_relax_samples L = r).
  { unfold plan, waveform_bursts, writer_num_bursts, floordiv.
    rewrite Hr. apply Z.eqb_neq in Hb. rewrite Hb. simpl.
    eexists. repeat split. }
  destruct Hp as [L [Hp [H1 H2]]]. exists L. repeat split; try assumption.
  intros w. destruct (layout_phase_plan cfg ws w) as [evs [He _]].
  rewrite He. simpl. exact Hp.
Qed.

Lemma C3_plan_never_rejects_witness :
  exists L,
    plan (config_with_relaxation 3000 0) 0 = Done L /\
    l_waveform_samples L = 0 /\
    l_relax_samples L = 0 /\
    forall w, fst (fst (layout_phase (config_with_relaxation 3000 0) 0 w)) = Done L.
Proof.
  apply (C3_plan_never_rejects (config_with_relaxation 3000 0) 0 0).
  - vm_compute. discriminate.
  - vm_compute. reflexivity.
Defined.

(** The layout phase reads five values of the configuration. *)
Lemma layout_phase_inputs (cfg1 cfg2 : Config) (ws : Z) :
  SAMPLE_SIZE cfg1 = SAMPLE_SIZE cfg2 ->
  BURST_BYTES cfg1 = BURST_BYTES cfg2 ->
  RELAXATION_TIME_US cfg1 = RELAXATION_TIME_US cfg2 ->
  SAMPLE_RATE cfg1 = SAMPLE_RATE cfg2 ->
  RAM_BASE cfg1 = RAM_BASE cfg2 ->
  plan cfg1 ws = plan cfg2 ws /\
  forall w, layout_phase cfg1 ws w = layout_phase cfg2 ws w.
Proof.
  intros H1 H2 H3 H4 H5.
  unfold plan, layout_phase, waveform_bursts, writer_offset_rel,
    writer_offset, waveform_bytes, pad, relax_samples, relax_product,
    writer_num_bursts, true_writer_bytes, floordiv.
  rewrite H1, H2, H3, H4, H5. split; [reflexivity | intros w; reflexivity].
Qed.

(** C9: the layout computation depends on its six inputs only and has no
    side effect.  Take two runs of the layout phase whose waveform sample
    count, sample size, burst size, relaxation microseconds, sample rate
    and RAM base agree, in configurations that may differ in every other
    value (duration, excitation time, register base and size, RAM size)
    and in arbitrary and possibly different surroundings (register
    values, clock, DDR contents).  Both return the same result, namely
    [plan], whose fields are all the layout outputs; they print the same
    lines, perform no hardware access and leave their surroundings
    untouched. *)
Theorem C9_layout_deterministic (cfg1 cfg2 : Config) (ws : Z) (w1 w2 : world) :
  SAMPLE_SIZE cfg1 = SAMPLE_SIZE cfg2 ->
  BURST_BYTES cfg1 = BURST_BYTES cfg2 ->
  RELAXATION_TIME_US cfg1 = RELAXATION_TIME_US cfg2 ->
  SAMPLE_RATE cfg1 = SAMPLE_RATE cfg2 ->
  RAM_BASE cfg1 = RAM_BASE cfg2 ->
  fst (fst (layout_phase cfg1 ws w1)) = fst (fst (layout_phase cfg2 ws w2)) /\
  fst (fst (layout_phase cfg1 ws w1)) = plan cfg1 ws /\
  plan cfg1 ws = plan cfg2 ws /\
  snd (layout_phase cfg1 ws w1) = snd (layout_phase cfg2 ws w2) /\
  existsb touches_hardware (snd (layout_phase cfg1 ws w1)) = false /\
  snd (fst (layout_phase cfg1 ws w1)) = w1 /\
  snd (fst (layout_phase cfg2 ws w2)) = w2.
Proof.
  intros H1 H2 H3 H4 H5.
  destruct (layout_phase_inputs cfg1 cfg2 ws H1 H2 H3 H4 H5) as [Hpl Hph].
  rewrite <- (Hph w2). rewrite <- Hpl.
  destruct (layout_phase_plan cfg1 ws w1) as [evs [_ [Hp Hall]]].
  rewrite (Hall w1), (Hall w2). simpl. repeat split.
  clear - Hp. induction evs as [| e evs IH]; [reflexivity |].
  simpl in *. apply andb_true_iff in Hp. destruct Hp as [He Hp].
  rewrite (IH Hp). destruct e; try discriminate; reflexivity.
Qed.

Lemma C9_layout_deterministic_witness :
  RAM_SIZE default_config <> RAM_SIZE other_surroundings_config /\
  DURATION_S default_config <> DURATION_S other_surroundings_config /\
  EXCITATION_TIME_US default_config
    <> EXCITATION_TIME_US other_surroundings_config /\
  AXIL_BASE default_config <> AXIL_BASE other_surroundings_config /\
  AXIL_SIZE default_config <> AXIL_SIZE other_surroundings_config /\
  fst (fst (layout_phase default_config 125000 (plain_world 0)))
    = fst (fst (layout_phase other_surroundings_config 125000 two_poll_world)) /\
  fst (fst (layout_phase default_config 125000 (plain_world 0)))
    = Done (mkLayout 125000 250048 1953 17027264 250048
                     375000 375040 5860 750080).
Proof.
  repeat (split; [vm_compute; discriminate |]).
  destruct (C9_layout_deterministic default_config other_surroundings_config
              125000 (plain_world 0) two_poll_world
              eq_refl eq_refl eq_refl eq_refl eq_refl)
    as [Hsame [Hplan _]].
  split; [exact Hsame |].
  rewrite Hplan. vm_compute. reflexivity.
Defined.

(** C10: with 2-byte samples and 128-byte bursts the 64-sample alignment
    already gives a burst-aligned byte count, for every non-negative raw
    relax-sample count: the burst count times the burst size equals the
    aligned sample count times the sample size, so [true_writer_bytes]
    discards nothing. *)
Theorem C10_round_down_is_noop (cfg : Config) (rs : Z) :
  SAMPLE_SIZE cfg = 2 -> BURST_BYTES cfg = 128 -> 0 <= rs ->
  exists nb,
    writer_num_bursts cfg rs = Done nb /\
    true_writer_bytes cfg nb = relax_samples_aligned rs * SAMPLE_SIZE cfg /\
    nb * BURST_BYTES cfg = relax_samples_aligned rs * SAMPLE_SIZE cfg /\
    (relax_samples_aligned rs * SAMPLE_SIZE cfg) mod BURST_BYTES cfg = 0.
Proof.
  intros Hs Hb _.
  unfold writer_num_bursts, true_writer_bytes, floordiv. rewrite Hs, Hb.
  simpl (128 =? 0).
  pose proof (relax_samples_aligned_eq rs) as Ha.
  set (a := relax_samples_aligned rs) in *.
  set (q := a / 64) in *.
  assert (Hd : a * 2 / 128 = q).
  { replace (a * 2) with (q * 128) by lia. apply Z.div_mul. lia. }
  exists q. rewrite Hd. repeat split; try lia.
  replace (a * 2) with (q * 128) by lia. apply Z.mod_mul. lia.
Qed.

Lemma C10_round_down_is_noop_witness :
  exists nb,
    writer_num_bursts default_config 375000 = Done nb /\
    true_writer_bytes default_config nb
      = relax_samples_aligned 375000 * SAMPLE_SIZE default_config /\
    nb * BURST_BYTES default_config
      = relax_samples_aligned 375000 * SAMPLE_SIZE default_config /\
    (relax_samples_aligned 375000 * SAMPLE_SIZE default_config)
      mod BURST_BYTES default_config = 0.
Proof.
  apply (C10_round_down_is_noop default_config 375000).
  - reflexivity.
  - reflexivity.
  - lia.
Defined.

(* ===================================================================== *)
(** ** Properties of [wait_done]                                       *)
(* ===================================================================== *)

Lemma advance_ext (a a' b b' : nat) (w : world) :
  a = a' -> b = b' -> advance a b w = advance a' b' w.
Proof. intros -> ->. reflexivity. Qed.

(** One iteration of the loop, started after [i] iterations. *)
Lemma wait_done_loop_step (fuel i : nat) (timeout_s poll_interval : float)
  (w : world) :
  wait_done_loop (S fuel) (entry_clock w) timeout_s poll_interval
                 (advance (4 * i) (S i) w)
  = if both_done w i then
      (Done (Some (poll_reg w i 2, poll_reg w i 3)),
       advance (4 + 4 * i) (S i) w, poll_reads w i)
    else if expired w timeout_s i then
      (Raised (TimeoutError (poll_reg w i 2) (poll_reg w i 3)),
       advance (4 + 4 * i) (S (S i)) w, poll_reads w i)
    else
      match sleep_check poll_interval with
      | Done _ =>
          prepend (poll_reads w i ++ [EvSleep poll_interval])
            (wait_done_loop fuel (entry_clock w) timeout_s poll_interval
                            (advance (4 + 4 * i) (S (S i)) w))
      | Raised e =>
          (Raised e, advance (4 + 4 * i) (S (S i)) w, poll_reads w i)
      end.
Proof.
  unfold both_done, expired, poll_reads, poll_clock, poll_reg.
  cbn [wait_done_loop].
  unfold bind, read32, time_time, sleep, emit, ret, raise, next_reg,
    next_clock, advance, prepend.
  cbn beta iota delta [axil_maps ram_maps reg_in reg_pos clock_in clock_pos
                       ddr app Nat.add].
  destruct (truthy (Z.land (reg_in w (4 * i + reg_pos w)) 1)
            && truthy (Z.land (reg_in w (S (4 * i + reg_pos w))) 1)).
  - reflexivity.
  - cbn beta iota delta [axil_maps ram_maps reg_in reg_pos clock_in
                         clock_pos ddr app Nat.add].
    destruct (fgt (fsub (clock_in w (S (i + clock_pos w))) (entry_clock w))
                  timeout_s).
    + reflexivity.
    + cbn beta iota delta [axil_maps ram_maps reg_in reg_pos clock_in
                           clock_pos ddr app Nat.add].
      destruct (sleep_check poll_interval) as [[] | e].
      * cbn beta iota delta [axil_maps ram_maps reg_in reg_pos clock_in
                             clock_pos ddr app Nat.add].
        destruct (wait_done_loop fuel (entry_clock w) timeout_s poll_interval _)
          as [[r w'] evs].
        reflexivity.
      * reflexivity.
Qed.

Lemma prepend_nil {A} (r : outcome A * world * list event) : prepend [] r = r.
Proof. destruct r as [[a w] e]. reflexivity. Qed.

Lemma prepend_prepend {A} (e1 e2 : list event)
  (r : outcome A * world * list event) :
  prepend e1 (prepend e2 r) = prepend (e1 ++ e2) r.
Proof. destruct r as [[a w] e]. simpl. rewrite app_assoc. reflexivity. Qed.

(** Iterations that neither see both flags nor time out are skipped over,
    leaving their reads and sleeps in the trace. *)
Lemma wait_done_loop_idle (timeout_s poll_interval : float) (w : world) :
  sleep_check poll_interval = Done tt ->
  forall (d i fuel : nat),
    (forall j, (i <= j < i + d)%nat ->
               both_done w j = false /\ expired w timeout_s j = false) ->
    wait_done_loop (d + fuel) (entry_clock w) timeout_s poll_interval
                   (advance (4 * i) (S i) w)
    = prepend (idle_polls w poll_interval i d)
        (wait_done_loop fuel (entry_clock w) timeout_s poll_interval
                        (advance (4 * (i + d)) (S (i + d)) w)).
Proof.
  intros Hs. induction d as [| d IH]; intros i fuel Hidle.
  - rewrite Nat.add_0_r. unfold idle_polls. simpl. rewrite prepend_nil.
    reflexivity.
  - change (S d + fuel)%nat with (S (d + fuel)).
    rewrite wait_done_loop_step.
    destruct (Hidle i ltac:(lia)) as [Hd He]. rewrite Hd, He, Hs.
    rewrite (advance_ext (4 + 4 * i) (4 * S i) (S (S i)) (S (S i)) w)
      by lia.
    rewrite IH by (intros j Hj; apply Hidle; lia).
    rewrite prepend_prepend.
    rewrite (advance_ext (4 * (S i + d)) (4 * (i + S d))
                         (S (S i + d)) (S (i + S d)) w) by lia.
    unfold idle_polls. reflexivity.
Qed.

Lemma wait_done_unfold (fuel : nat) (timeout_s poll_interval : float)
  (w : world) :
  wait_done fuel timeout_s poll_interval w
  = wait_done_loop fuel (entry_clock w) timeout_s poll_interval
                   (advance (4 * 0) 1 w).
Proof.
  unfold wait_done, bind, time_time, entry_clock.
  change (advance (4 * 0) 1 w) with (next_clock w).
  destruct (wait_done_loop fuel (clock_in w (clock_pos w)) timeout_s
                           poll_interval (next_clock w)) as [[r w'] evs].
  reflexivity.
Qed.

(** C4, the claim as stated fails: a completion that is first seen after
    the deadline is returned, not reported as a timeout.  In [late_world]
    the first iteration sees the flags clear and reads the clock exactly 30
    seconds after entry, which does not exceed the timeout of 30 seconds;
    after the sleep of 0.05 seconds the second iteration, which cannot
    take place before 30.05 seconds have passed, sees both flags set, and
    [wait_done] returns the pointers of that iteration. *)
Lemma C4_counterexample :
  sleep_check lit_0_05 = Done tt /\
  both_done late_world 0 = false /\
  expired late_world lit_30_0 0 = false /\
  fgt (fsub (earliest_next_poll late_world lit_0_05 0) (entry_clock late_world))
      lit_30_0 = true /\
  both_done late_world 1 = true /\
  wait_done 5 lit_30_0 lit_0_05 late_world
  = (Done (Some (33, 44)), advance 8 2 late_world,
     [ EvRead32 WRITER_DONE_REG 0; EvRead32 READER_DONE_REG 0;
       EvRead32 WRITER_WRITE_PTR_REG 11; EvRead32 READER_READ_PTR_REG 22;
       EvSleep lit_0_05;
       EvRead32 WRITER_DONE_REG 1; EvRead32 READER_DONE_REG 1;
       EvRead32 WRITER_WRITE_PTR_REG 33; EvRead32 READER_READ_PTR_REG 44 ]).
Proof.
  repeat split; vm_compute; reflexivity.
Qed.

(** C4, amended: on every sequence of register and clock readings and for
    every poll interval that [time.sleep] accepts, each iteration reads the
    two done flags and the two pointers, and tests the flags before the
    clock.  If iteration [k] is the first in which both done flags read as
    set, and in no earlier iteration the clock reading exceeded the entry
    reading by more than the timeout, [wait_done] returns the write and
    read pointers read in that same iteration [k], however late that
    iteration takes place.  If instead iteration [k] is the first in which
    a flag reads as clear and the clock reading then taken exceeds the
    entry reading by more than the timeout, no earlier iteration having
    seen both flags set, it raises TimeoutError carrying the pointers read
    in iteration [k], the last ones observed.  In both cases the trace
    shows the four register reads, pointers included, of every iteration
    from 0 to [k], with a sleep between two iterations. *)
Theorem C4_wait_done_result (w : world) (timeout_s poll_interval : float)
  (k fuel : nat) :
  sleep_check poll_interval = Done tt ->
  (k < fuel)%nat ->
  (forall j, (j < k)%nat ->
             both_done w j = false /\ expired w timeout_s j = false) ->
  (both_done w k = true ->
   wait_done fuel timeout_s poll_interval w
   = (Done (Some (poll_reg w k 2, poll_reg w k 3)),
      advance (4 * S k) (S k) w,
      idle_polls w poll_interval 0 k ++ poll_reads w k)) /\
  (both_done w k = false -> expired w timeout_s k = true ->
   wait_done fuel timeout_s poll_interval w
   = (Raised (TimeoutError (poll_reg w k 2) (poll_reg w k 3)),
      advance (4 * S k) (S (S k)) w,
      idle_polls w poll_interval 0 k ++ poll_reads w k)).
Proof.
  intros Hs Hk Hidle.
  assert (Hf : exists f, fuel = (k + S f)%nat) by (exists (fuel - S k)%nat; lia).
  destruct Hf as [f ->].
  assert (Hrun :
    wait_done (k + S f) timeout_s poll_interval w
    = prepend (idle_polls w poll_interval 0 k)
        (wait_done_loop (S f) (entry_clock w) timeout_s poll_interval
                        (advance (4 * k) (S k) w))).
  { rewrite wait_done_unfold.
    rewrite (wait_done_loop_idle _ _ _ Hs)
      by (intros j Hj; apply Hidle; lia).
    reflexivity. }
  rewrite Hrun, wait_done_loop_step.
  rewrite (advance_ext (4 + 4 * k) (4 * S k) (S k) (S k) w) by lia.
  rewrite (advance_ext (4 + 4 * k) (4 * S k) (S (S k)) (S (S k)) w) by lia.
  split.
  - intros Hd. rewrite Hd. reflexivity.
  - intros Hd He. rewrite Hd, He. reflexivity.
Qed.

(** While no iteration is decisive the loop keeps polling: after [fuel]
    idle iterations it is still running. *)
Lemma wait_done_still_polling (w : world) (timeout_s poll_interval : float)
  (fuel : nat) :
  sleep_check poll_interval = Done tt ->
  (forall j, (j < fuel)%nat ->
             both_done w j = false /\ expired w timeout_s j = false) ->
  wait_done fuel timeout_s poll_interval w
  = (Done None, advance (4 * fuel) (S fuel) w,
     idle_polls w poll_interval 0 fuel).
Proof.
  intros Hs Hidle. rewrite wait_done_unfold.
  replace fuel with (fuel + 0)%nat at 1 by lia.
  rewrite (wait_done_loop_idle _ _ _ Hs) by (intros j Hj; apply Hidle; lia).
  simpl. rewrite app_nil_r. reflexivity.
Qed.

Lemma C4_wait_done_result_witness :
  (wait_done 5 lit_30_0 lit_0_05 two_poll_world
   = (Done (Some (4096, 8192)), advance 8 2 two_poll_world,
      idle_polls two_poll_world lit_0_05 0 1 ++ poll_reads two_poll_world 1)) /\
  (expired timeout_world lit_30_0 0 = false /\
   expired timeout_world lit_30_0 1 = true /\
   wait_done 5 lit_30_0 lit_0_05 timeout_world
   = (Raised (TimeoutError 33 44), advance 8 3 timeout_world,
      [ EvRead32 WRITER_DONE_REG 1; EvRead32 READER_DONE_REG 0;
        EvRead32 WRITER_WRITE_PTR_REG 11; EvRead32 READER_READ_PTR_REG 22;
        EvSleep lit_0_05;
        EvRead32 WRITER_DONE_REG 0; EvRead32 READER_DONE_REG 1;
        EvRead32 WRITER_WRITE_PTR_REG 33; EvRead32 READER_READ_PTR_REG 44 ])).
Proof.
  assert (Hs : sleep_check lit_0_05 = Done tt) by (vm_compute; reflexivity).
  assert (H1 : (1 < 5)%nat) by lia.
  split.
  - assert (H2 : forall j, (j < 1)%nat ->
                           both_done two_poll_world j = false /\
                           expired two_poll_world lit_30_0 j = false).
    { intros j Hj. assert (j = 0%nat) by lia. subst j.
      split; vm_compute; reflexivity. }
    destruct (C4_wait_done_result two_poll_world lit_30_0 lit_0_05 1 5
                                  Hs H1 H2) as [Hdone _].
    apply Hdone. vm_compute. reflexivity.
  - assert (H2 : forall j, (j < 1)%nat ->
                           both_done timeout_world j = false /\
                           expired timeout_world lit_30_0 j = false).
    { intros j Hj. assert (j = 0%nat) by lia. subst j.
      split; vm_compute; reflexivity. }
    destruct (C4_wait_done_result timeout_world lit_30_0 lit_0_05 1 5
                                  Hs H1 H2) as [_ Hraise].
    split; [vm_compute; reflexivity |].
    split; [vm_compute; reflexivity |].
    rewrite Hraise; [reflexivity | vm_compute; reflexivity ..].
Defined.

(* ===================================================================== *)
(** ** The extraction loop                                             *)
(* ===================================================================== *)

Lemma map_seq_from (A : Type) (len : nat) :
  forall (g : nat -> A) (s : nat),
    map g (seq s len) = map (fun k => g (s + k)%nat) (seq 0 len).
Proof.
  induction len as [| len IH]; intros g s; [reflexivity |].
  simpl. rewrite Nat.add_0_r. f_equal.
  rewrite (IH g (S s)), (IH (fun k => g (s + k)%nat) 1%nat).
  apply map_ext. intros k. f_equal. lia.
Qed.

Lemma ddr_slice_app (mem : Z -> Byte.byte) (off a b : Z) :
  0 <= a -> 0 <= b ->
  ddr_slice mem off (a + b) = ddr_slice mem off a ++ ddr_slice mem (off + a) b.
Proof.
  intros Ha Hb. unfold ddr_slice.
  rewrite Z2Nat.inj_add by lia. rewrite seq_app, map_app. f_equal.
  rewrite map_seq_from. apply map_ext. intros k. f_equal. lia.
Qed.

Lemma ddr_slice_nonpos (mem : Z -> Byte.byte) (off len : Z) :
  len <= 0 -> ddr_slice mem off len = [].
Proof.
  intros H. unfold ddr_slice.
  replace (Z.to_nat len) with 0%nat by lia. reflexivity.
Qed.

Lemma ddr_slice_length (mem : Z -> Byte.byte) (off len : Z) :
  0 <= len -> Z.of_nat (List.length (ddr_slice mem off len)) = len.
Proof.
  intros H. unfold ddr_slice. rewrite length_map, length_seq. lia.
Qed.

(** One iteration whose read ends within the mapping. *)
Lemma extract_chunk_run (size rel B c off acc : Z) (w : world) :
  rel + off + Z.min c (B - off) <= size ->
  extract_chunk size rel B c off acc w
  = (Done (acc + Z.min c (B - off)), w,
     [ EvRamRead (rel + off) (Z.min c (B - off));
       EvFileWrite (ddr_slice (ddr w) (rel + off) (Z.min c (B - off)));
       EvPrint (Progress (acc + Z.min c (B - off)) B) ]).
Proof.
  intros H. unfold extract_chunk, bind, ram_read.
  replace (rel + off + Z.min c (B - off) >? size) with false
    by (symmetry; rewrite Z.gtb_ltb; apply Z.ltb_ge; exact H).
  reflexivity.
Qed.

(** One iteration whose read ends beyond the mapping. *)
Lemma extract_chunk_fails (size rel B c off acc : Z) (w : world) :
  size < rel + off + Z.min c (B - off) ->
  extract_chunk size rel B c off acc w = (Raised ValueError, w, []).
Proof.
  intros H. unfold extract_chunk, bind, ram_read.
  replace (rel + off + Z.min c (B - off) >? size) with true
    by (symmetry; rewrite Z.gtb_ltb; apply Z.ltb_lt; exact H).
  reflexivity.
Qed.

(** The loop from chunk [i] on: it reads what remains of the region. *)
Lemma extract_loop (size rel B c : Z) (w : world) :
  0 < c -> rel + B <= size ->
  forall (n i : nat) (acc : Z),
    (forall k, (i <= k < i + n)%nat -> Z.of_nat k * c < B) ->
    B <= Z.of_nat (i + n) * c ->
    exists evs,
      for_fold (map (fun k => 0 + Z.of_nat k * c) (seq i n))
               (extract_chunk size rel B c) acc w
      = (Done (acc + Z.max 0 (B - Z.of_nat i * c)), w, evs) /\
      file_bytes evs
      = ddr_slice (ddr w) (rel + Z.of_nat i * c) (Z.max 0 (B - Z.of_nat i * c)) /\
      ram_reads evs
      = chunk_reads rel B c (map (fun k => 0 + Z.of_nat k * c) (seq i n)) /\
      map (fun ch => Z.of_nat (List.length ch)) (file_chunks evs)
      = map snd (ram_reads evs).
Proof.
  intros Hc Hfit. induction n as [| n IH]; intros i acc Hlt Hge.
  - exists []. simpl. unfold ret.
    replace (Z.max 0 (B - Z.of_nat i * c)) with 0
      by (rewrite Nat.add_0_r in Hge; lia).
    rewrite Z.add_0_r. repeat split.
  - assert (Hi : Z.of_nat i * c < B) by (apply Hlt; lia).
    set (rs := Z.min c (B - Z.of_nat i * c)).
    assert (Hrs : 0 < rs) by (unfold rs; lia).
    destruct (IH (S i) (acc + rs)) as [evs [Hrun [Hbytes [Hreads Hlen]]]].
    { intros k Hk. apply Hlt. lia. }
    { replace (S i + n)%nat with (i + S n)%nat by lia. exact Hge. }
    assert (Hrem : rs + Z.max 0 (B - Z.of_nat (S i) * c)
                   = Z.max 0 (B - Z.of_nat i * c)) by (unfold rs; lia).
    exists ([ EvRamRead (rel + Z.of_nat i * c) rs;
              EvFileWrite (ddr_slice (ddr w) (rel + Z.of_nat i * c) rs);
              EvPrint (Progress (acc + rs) B) ] ++ evs).
    split; [| split; [| split]].
    + cbn [seq map for_fold]. unfold bind at 1.
      change (0 + Z.of_nat i * c) with (Z.of_nat i * c).
      rewrite extract_chunk_run by lia. fold rs.
      rewrite Hrun.
      rewrite <- Hrem. rewrite Z.add_assoc. reflexivity.
    + change (file_bytes ([EvRamRead (rel + Z.of_nat i * c) rs;
                           EvFileWrite (ddr_slice (ddr w) (rel + Z.of_nat i * c) rs);
                           EvPrint (Progress (acc + rs) B)] ++ evs))
        with (ddr_slice (ddr w) (rel + Z.of_nat i * c) rs ++ file_bytes evs).
      rewrite Hbytes, <- Hrem.
      rewrite ddr_slice_app by lia.
      f_equal.
      destruct (Z.le_gt_cases c (B - Z.of_nat i * c)) as [Hfull | Hlast].
      * f_equal. unfold rs. lia.
      * rewrite !ddr_slice_nonpos by lia. reflexivity.
    + change (ram_reads ([EvRamRead (rel + Z.of_nat i * c) rs;
                          EvFileWrite (ddr_slice (ddr w) (rel + Z.of_nat i * c) rs);
                          EvPrint (Progress (acc + rs) B)] ++ evs))
        with ((rel + Z.of_nat i * c, rs) :: ram_reads evs).
      rewrite Hreads. reflexivity.
    + change (file_chunks ([EvRamRead (rel + Z.of_nat i * c) rs;
                            EvFileWrite (ddr_slice (ddr w) (rel + Z.of_nat i * c) rs);
                            EvPrint (Progress (acc + rs) B)] ++ evs))
        with (ddr_slice (ddr w) (rel + Z.of_nat i * c) rs :: file_chunks evs).
      change (ram_reads ([EvRamRead (rel + Z.of_nat i * c) rs;
                          EvFileWrite (ddr_slice (ddr w) (rel + Z.of_nat i * c) rs);
                          EvPrint (Progress (acc + rs) B)] ++ evs))
        with ((rel + Z.of_nat i * c, rs) :: ram_reads evs).
      cbn [map snd]. rewrite Hlen, ddr_slice_length by lia. reflexivity.
Qed.

Lemma chunk_count_bounds (B c : Z) :
  0 <= B -> 0 < c ->
  (forall k, (k < Z.to_nat ((B - 0 + c - 1) / c))%nat -> Z.of_nat k * c < B) /\
  B <= Z.of_nat (Z.to_nat ((B - 0 + c - 1) / c)) * c.
Proof.
  intros HB Hc.
  set (q := (B - 0 + c - 1) / c).
  pose proof (Z.div_mod (B - 0 + c - 1) c ltac:(lia)) as Hdm.
  pose proof (Z.mod_pos_bound (B - 0 + c - 1) c Hc) as Hmod.
  fold q in Hdm.
  assert (Hq : 0 <= q) by (apply Z.div_pos; lia).
  split.
  - intros k Hk. assert (Hk' : Z.of_nat k <= q - 1) by lia. nia.
  - rewrite Z2Nat.id by lia. nia.
Qed.

(** C5, the claim as stated fails: the loop reads through a mapping of
    [RAM_SIZE] bytes, and a read that ends beyond the mapping raises
    ValueError.  With the script's 4 MiB mapping the capture of a
    relaxation time of 30000 microseconds (7500032 bytes from offset
    250048 on), and also the 10000000 bytes of the claim's own example,
    end the loop in its first read, with no chunk produced. *)
Lemma C5_counterexample :
  plan (config_with_relaxation 30000 125000000) 125000
    = Done (mkLayout 125000 250048 1953 17027264 250048
                     3750000 3750016 58594 7500032) /\
  RAM_SIZE (config_with_relaxation 30000 125000000) = 4194304 /\
  (forall w,
      extract (RAM_SIZE (config_with_relaxation 30000 125000000))
              250048 7500032 (8 * 1024 * 1024) w
      = (Raised ValueError, w, [EvOpen OUT_RAW])) /\
  (forall w,
      extract (RAM_SIZE default_config) 0 10000000 (8 * 1024 * 1024) w
      = (Raised ValueError, w, [EvOpen OUT_RAW])).
Proof.
  split; [vm_compute; reflexivity |].
  split; [reflexivity |].
  split; intros w; reflexivity.
Qed.

(** C5, amended: for every byte length [B >= 0] and chunk size [c > 0],
    when the capture region (the [B] bytes from the relative offset on)
    lies within the mapped buffer, the extraction loop ends with
    [bytes_read = B]; its reads are at the offsets [0, c, 2c, ...] below
    [B], each of size [min(c, B - offset)]; every chunk written has the
    size of its read, the sizes add up to [B], and the bytes written are
    the [B] bytes of the capture region, whatever the chunk size.  With
    [B = 10000000] and [c = 8 * 1024 * 1024], in a mapping that holds the
    region, there are two reads, of 8388608 and 1611392 bytes. *)
Theorem C5_extract_reads_exactly (size rel B c : Z) (w : world) :
  0 <= B -> 0 < c -> 0 <= rel -> rel + B <= size ->
  exists evs,
    extract size rel B c w = (Done B, w, evs) /\
    ram_reads evs = chunk_reads rel B c (py_range 0 B c) /\
    map (fun ch => Z.of_nat (List.length ch)) (file_chunks evs)
      = map snd (ram_reads evs) /\
    file_bytes evs = ddr_slice (ddr w) rel B /\
    Z.of_nat (List.length (file_bytes evs)) = B /\
    (forall c', 0 < c' ->
                file_bytes (snd (extract size rel B c' w)) = file_bytes evs) /\
    (forall size' rel' w',
        0 <= rel' -> rel' + 10000000 <= size' ->
        ram_reads (snd (extract size' rel' 10000000 (8 * 1024 * 1024) w'))
        = [(rel' + 0, 8388608); (rel' + 8388608, 1611392)]).
Proof.
  assert (Hgen : forall sz r b ch u, 0 <= b -> 0 < ch -> r + b <= sz ->
            exists evs,
              extract sz r b ch u = (Done b, u, evs) /\
              ram_reads evs = chunk_reads r b ch (py_range 0 b ch) /\
              map (fun x => Z.of_nat (List.length x)) (file_chunks evs)
                = map snd (ram_reads evs) /\
              file_bytes evs = ddr_slice (ddr u) r b).
  { intros sz r b ch u Hb Hch Hfit.
    destruct (chunk_count_bounds b ch Hb Hch) as [Hlt Hge].
    destruct (extract_loop sz r b ch u Hch Hfit
                (Z.to_nat ((b - 0 + ch - 1) / ch)) 0 0) as [evs [Hrun [Hby [Hrd Hln]]]].
    { intros k Hk. apply Hlt. lia. }
    { exact Hge. }
    change (Z.of_nat 0 * ch) with 0 in *.
    replace (Z.max 0 (b - 0)) with b in * by lia.
    rewrite Z.add_0_r in Hby.
    exists (EvOpen OUT_RAW :: evs).
    split; [| split; [| split]].
    - unfold extract, bind, emit, py_range. rewrite Hrun. reflexivity.
    - exact Hrd.
    - exact Hln.
    - exact Hby. }
  intros HB Hc _ Hfit.
  destruct (Hgen size rel B c w HB Hc Hfit) as [evs [Hrun [Hrd [Hln Hby]]]].
  exists evs. split; [exact Hrun |]. split; [exact Hrd |].
  split; [exact Hln |]. split; [exact Hby |]. split; [| split].
  - rewrite Hby. apply ddr_slice_length. exact HB.
  - intros c' Hc'.
    destruct (Hgen size rel B c' w HB Hc' Hfit) as [evs' [Hrun' [_ [_ Hby']]]].
    rewrite Hrun'. simpl. rewrite Hby', Hby. reflexivity.
  - intros size' rel' w' _ Hfit'.
    destruct (Hgen size' rel' 10000000 (8 * 1024 * 1024) w'
                ltac:(lia) ltac:(lia) Hfit')
      as [evs' [Hrun' [Hrd' _]]].
    rewrite Hrun'. simpl snd. rewrite Hrd'. reflexivity.
Qed.

Lemma C5_extract_reads_exactly_witness :
  exists evs,
    extract 128 64 10 4 (mkWorld true true (fun _ => 0) 0 (fun _ => lit_0_5) 0
                                 counting_ddr)
      = (Done 10, mkWorld true true (fun _ => 0) 0 (fun _ => lit_0_5) 0
                          counting_ddr, evs) /\
    ram_reads evs = [(64, 4); (68, 4); (72, 2)] /\
    Z.of_nat (List.length (file_bytes evs)) = 10.
Proof.
  destruct (C5_extract_reads_exactly 128 64 10 4
              (mkWorld true true (fun _ => 0) 0 (fun _ => lit_0_5) 0 counting_ddr)
              ltac:(lia) ltac:(lia) ltac:(lia) ltac:(lia))
    as [evs [Hrun [Hrd [_ [_ [Hlen _]]]]]].
  exists evs. split; [exact Hrun |]. split; [| exact Hlen].
  rewrite Hrd. reflexivity.
Defined.

(* ===================================================================== *)
(** ** Which register value is the expected identity                   *)
(* ===================================================================== *)

Lemma to_bytes_4_big_in_range (v : Z) :
  0 <= v < 2 ^ 32 ->
  to_bytes_4_big v
  = Done [ byte_of_Z (Z.land (Z.shiftr v 24) 0xFF);
           byte_of_Z (Z.land (Z.shiftr v 16) 0xFF);
           byte_of_Z (Z.land (Z.shiftr v 8) 0xFF);
           byte_of_Z (Z.land v 0xFF) ].
Proof.
  intros [H0 H1]. unfold to_bytes_4_big.
  apply Z.leb_le in H0. apply Z.ltb_lt in H1. rewrite H0, H1. reflexivity.
Qed.

Lemma byte_of_Z_inv (x : Z) (b : Byte.byte) :
  0 <= x < 256 -> byte_of_Z x = b -> x = Z.of_N (Byte.to_N b).
Proof.
  intros Hx. unfold byte_of_Z.
  destruct (Byte.of_N (Z.to_N x)) as [b' |] eqn:E.
  - intros <-. apply Byte.to_of_N in E. rewrite E. lia.
  - apply Byte.of_N_None_iff in E. lia.
Qed.

Lemma land_255_range (x : Z) : 0 <= Z.land x 0xFF < 256.
Proof.
  change 0xFF with (Z.ones 8). rewrite Z.land_ones by lia.
  apply Z.mod_pos_bound. lia.
Qed.

(** The identity check passes for one register value only. *)
Lemma decode_identity_expected (v : Z) :
  0 <= v < 2 ^ 32 ->
  (decode_identity v = Done expected_magic <-> v = 0xC5414243).
Proof.
  intros Hv. split.
  - unfold decode_identity. rewrite (to_bytes_4_big_in_range v Hv).
    unfold obind, decode_latin1, strip, expected_magic.
    set (a3 := ascii_of_byte (byte_of_Z (Z.land (Z.shiftr v 24) 255))).
    set (a2 := ascii_of_byte (byte_of_Z (Z.land (Z.shiftr v 16) 255))).
    set (a1 := ascii_of_byte (byte_of_Z (Z.land (Z.shiftr v 8) 255))).
    set (a0 := ascii_of_byte (byte_of_Z (Z.land v 255))).
    change (string_of_list_byte _)
      with (String a3 (String a2 (String a1 (String a0 EmptyString)))).
    cbn [list_ascii_of_string lstrip].
    intros H.
    assert (Hall : a3 = ascii_of_N 197 /\ a2 = "A"%char /\ a1 = "B"%char
                   /\ a0 = "C"%char).
    { clearbody a3 a2 a1 a0. revert H.
      repeat (match goal with
              | |- context [if isspace ?a then _ else _] =>
                  destruct (isspace a)
              end; cbn [rev lstrip app]);
        cbn [string_of_list_ascii]; intros H; inversion H;
        repeat split; reflexivity. }
    destruct Hall as [H3 [H2 [H1 H0]]].
    unfold a3 in H3; unfold a2 in H2; unfold a1 in H1; unfold a0 in H0.
    clear H a3 a2 a1 a0.
    apply (f_equal byte_of_ascii) in H3, H2, H1, H0.
    rewrite byte_of_ascii_of_byte in H3, H2, H1, H0.
    apply byte_of_Z_inv in H3, H2, H1, H0; try apply land_255_range.
    change (Z.of_N (Byte.to_N (byte_of_ascii (ascii_of_N 197)))) with 197 in H3.
    change (Z.of_N (Byte.to_N (byte_of_ascii "A"))) with 65 in H2.
    change (Z.of_N (Byte.to_N (byte_of_ascii "B"))) with 66 in H1.
    change (Z.of_N (Byte.to_N (byte_of_ascii "C"))) with 67 in H0.
    change 255 with (Z.ones 8) in H3, H2, H1, H0.
    rewrite Z.land_ones in H3, H2, H1, H0 by lia.
    rewrite Z.shiftr_div_pow2 in H3, H2, H1 by lia.
    change (2 ^ 32) with 4294967296 in Hv.
    change (2 ^ 24) with 16777216 in H3.
    change (2 ^ 16) with 65536 in H2.
    change (2 ^ 8) with 256 in H1, H3, H2, H0.
    Z.div_mod_to_equations. lia.
  - intros ->. vm_compute. reflexivity.
Qed.

(* ===================================================================== *)
(** ** The script, phase by phase                                      *)
(* ===================================================================== *)

Lemma reg_writes_app (e1 e2 : list event) :
  reg_writes (e1 ++ e2) = reg_writes e1 ++ reg_writes e2.
Proof. unfold reg_writes. apply flat_map_app. Qed.


Lemma prints_write_nothing (evs : list event) :
  forallb is_print evs = true -> reg_writes evs = [] /\ ram_writes evs = [].
Proof.
  induction evs as [| e evs IH]; [split; reflexivity |].
  simpl. intros H. apply andb_true_iff in H. destruct H as [He H].
  destruct (IH H) as [IH1 IH2].
  destruct e; try discriminate. simpl. split; assumption.
Qed.

Lemma map_regions_ok (cfg : Config) (w : world) :
  axil_maps w = true -> ram_maps w = true ->
  map_regions cfg w = (Done tt, w, mapping_events cfg).
Proof.
  intros Ha Hr.
  unfold map_regions, try_except, bind, mmio_axil, mmio_ram, print, emit.
  rewrite Ha, Hr. reflexivity.
Qed.

Lemma map_regions_fail (cfg : Config) (w : world) :
  axil_maps w = false \/ ram_maps w = false ->
  map_regions cfg w
  = (Raised (SystemExit 1), w,
     EvPrint (Text "Mapping FPGA memory regions...")
       :: (if axil_maps w then [EvMap (AXIL_BASE cfg) (AXIL_SIZE cfg)] else [])
       ++ [EvPrint (MapFailed MMIOError)]).
Proof.
  intros H.
  unfold map_regions, try_except, bind, mmio_axil, mmio_ram, print, emit, raise.
  destruct (axil_maps w); destruct (ram_maps w); try reflexivity.
  destruct H; discriminate.
Qed.

Lemma identity_check_run (w : world) (magic_str : string) :
  decode_identity (reg_in w (reg_pos w)) = Done magic_str ->
  identity_check w
  = (Done magic_str, next_reg w,
     identity_events (reg_in w (reg_pos w)) magic_str
       (if (magic_str =? expected_magic)%string then []
        else map EvPrint (identity_warning magic_str))).
Proof.
  intros Hd.
  unfold identity_check, identity_events, bind, read32, lift, print, emit, ret.
  rewrite Hd.
  destruct (magic_str =? expected_magic)%string; reflexivity.
Qed.

Lemma generate_waveform_run (cfg : Config) (n : Z) (w : world) :
  N cfg = Done n ->
  generate_waveform cfg w
  = (Done (waveform_len n), w,
     [ EvPrint (Text "Generating excitation waveform...");
       EvPrint (Text "Generating excitation waveform...");
       EvRamWrite 0 (WaveformBytes (2 * waveform_len n)) ]).
Proof.
  intros Hn.
  unfold generate_waveform, bind, lift, print, ram_write, emit, ret.
  rewrite Hn. reflexivity.
Qed.

(** With a non-empty waveform the first iteration of the chunked write
    raises, before [ram_mmio.write] is reached. *)
Lemma write_waveform_raises (ws : Z) (w : world) :
  0 < ws ->
  write_waveform ws w
  = (Raised TypeError, w,
     [EvPrint (Text "Writing excitation waveform to DDR...")]).
Proof.
  intros Hws. unfold write_waveform, py_range.
  assert (Hq : 1 <= (2 * ws - 0 + 1024 * 1024 - 1) / (1024 * 1024)).
  { apply Z.div_le_lower_bound; lia. }
  destruct (Z.to_nat ((2 * ws - 0 + 1024 * 1024 - 1) / (1024 * 1024)))
    as [| m] eqn:Hm; [lia |].
  reflexivity.
Qed.

(** With an empty waveform the loop body never runs. *)
Lemma write_waveform_empty (w : world) :
  write_waveform 0 w
  = (Done tt, w,
     [ EvPrint (Text "Writing excitation waveform to DDR...");
       EvPrint (Text "Waveform written.") ]).
Proof. reflexivity. Qed.

Lemma reset_device_run (w : world) :
  reset_device w = (Done tt, w, reset_events).
Proof. reflexivity. Qed.

(** Once the regions are mapped and the identity register decodes, the
    script goes on with [after_identity], whatever the identity was. *)
Lemma main_after_identity (cfg : Config) (w : world) (magic_str : string) :
  axil_maps w = true -> ram_maps w = true ->
  decode_identity (reg_in w (reg_pos w)) = Done magic_str ->
  main cfg w
  = prepend (mapping_events cfg
             ++ identity_events (reg_in w (reg_pos w)) magic_str
                  (if (magic_str =? expected_magic)%string then []
                   else map EvPrint (identity_warning magic_str)))
            (after_identity cfg (next_reg w)).
Proof.
  intros Ha Hr Hd. unfold main, bind.
  rewrite (map_regions_ok cfg w Ha Hr).
  rewrite (identity_check_run w magic_str Hd).
  destruct (after_identity cfg (next_reg w)) as [[r w'] e].
  unfold prepend. rewrite app_assoc. reflexivity.
Qed.





(** C7: for every 32-bit value read from the identity register the check
    returns normally.  When the decoded string is the expected constant
    nothing is printed between the read and the confirmation line; when it
    differs, exactly the two warning lines are printed there (the
    unrecognized constant, then the line saying that the script
    continues) and nothing else happens: in both cases the world after the
    check is the same, and the script goes on with the same continuation
    from it. *)
Theorem C7_identity_mismatch_only_warns (cfg : Config) (w : world) :
  0 <= reg_in w (reg_pos w) < 2 ^ 32 ->
  exists magic_str warning,
    decode_identity (reg_in w (reg_pos w)) = Done magic_str /\
    identity_check w
    = (Done magic_str, next_reg w,
       [ EvPrint (Text "Checking FPGA identity constant...");
         EvRead32 MLA_CONST_REG (reg_in w (reg_pos w)) ]
       ++ warning ++ [ EvPrint (IdentityConfirmed magic_str) ]) /\
    (magic_str = expected_magic -> warning = []) /\
    (magic_str <> expected_magic ->
     warning
     = [ EvPrint (UnrecognizedConstant magic_str);
         EvPrint (Text "Assuming default Red Pitaya overlay (ring-down mode). Continuing.") ]) /\
    existsb touches_hardware warning = false /\
    (magic_str = expected_magic <-> reg_in w (reg_pos w) = 0xC5414243) /\
    (axil_maps w = true -> ram_maps w = true ->
     main cfg w
     = prepend (mapping_events cfg
                ++ identity_events (reg_in w (reg_pos w)) magic_str warning)
               (after_identity cfg (next_reg w))).
Proof.
  intros Hv.
  assert (Hd : exists magic_str,
             decode_identity (reg_in w (reg_pos w)) = Done magic_str).
  { unfold decode_identity. rewrite (to_bytes_4_big_in_range _ Hv).
    eexists. reflexivity. }
  destruct Hd as [magic_str Hd].
  exists magic_str.
  exists (if (magic_str =? expected_magic)%string then []
          else map EvPrint (identity_warning magic_str)).
  split; [exact Hd |].
  split; [apply identity_check_run; exact Hd |].
  assert (Hiff : magic_str = expected_magic
                 <-> reg_in w (reg_pos w) = 0xC5414243).
  { rewrite <- (decode_identity_expected _ Hv), Hd.
    split; [intros ->; reflexivity | intros H; inversion H; reflexivity]. }
  destruct (String.eqb_spec magic_str expected_magic) as [He | Hne].
  - split; [reflexivity |]. split; [intros Hc; contradiction |].
    split; [reflexivity |]. split; [exact Hiff |].
    intros Ha Hr. rewrite (main_after_identity cfg w magic_str Ha Hr Hd).
    rewrite He, String.eqb_refl. reflexivity.
  - split; [intros Hc; contradiction |]. split; [reflexivity |].
    split; [reflexivity |]. split; [exact Hiff |].
    intros Ha Hr. rewrite (main_after_identity cfg w magic_str Ha Hr Hd).
    apply String.eqb_neq in Hne. rewrite Hne. reflexivity.
Qed.

Lemma C7_identity_mismatch_only_warns_witness :
  identity_check (plain_world 0x20414243)
  = (Done "ABC"%string, next_reg (plain_world 0x20414243),
     [ EvPrint (Text "Checking FPGA identity constant...");
       EvRead32 MLA_CONST_REG 0x20414243;
       EvPrint (UnrecognizedConstant "ABC");
       EvPrint (Text "Assuming default Red Pitaya overlay (ring-down mode). Continuing.");
       EvPrint (IdentityConfirmed "ABC") ]) /\
  identity_check (plain_world 0xC5414243)
  = (Done expected_magic, next_reg (plain_world 0xC5414243),
     [ EvPrint (Text "Checking FPGA identity constant...");
       EvRead32 MLA_CONST_REG 0xC5414243;
       EvPrint (IdentityConfirmed expected_magic) ]).
Proof.
  split.
  - destruct (C7_identity_mismatch_only_warns default_config
                (plain_world 0x20414243))
      as [magic_str [warning [Hd [Hrun [_ [Hw _]]]]]].
    + simpl. lia.
    + assert (Hm : magic_str = "ABC"%string).
      { vm_compute in Hd. inversion Hd. reflexivity. }
      subst magic_str. rewrite Hw in Hrun by discriminate.
      exact Hrun.
  - destruct (C7_identity_mismatch_only_warns default_config
                (plain_world 0xC5414243))
      as [magic_str [warning [Hd [Hrun [He _]]]]].
    + simpl. lia.
    + assert (Hm : magic_str = expected_magic).
      { vm_compute in Hd. inversion Hd. reflexivity. }
      subst magic_str. rewrite He in Hrun by reflexivity.
      exact Hrun.
Defined.

(** C8: if either region cannot be mapped the script prints the error and
    exits with status 1; its trace holds no register read, no register
    write and no buffer access, and the world is left as it was. *)
Theorem C8_mapping_failure_exits_first (cfg : Config) (w : world) :
  axil_maps w = false \/ ram_maps w = false ->
  exists evs,
    main cfg w = (Raised (SystemExit 1), w, evs) /\
    existsb touches_hardware evs = false /\
    evs = EvPrint (Text "Mapping FPGA memory regions...")
            :: (if axil_maps w then [EvMap (AXIL_BASE cfg) (AXIL_SIZE cfg)]
                else [])
            ++ [EvPrint (MapFailed MMIOError)].
Proof.
  intros H. eexists. split; [| split; [| reflexivity]].
  - unfold main, bind. rewrite (map_regions_fail cfg w H). reflexivity.
  - destruct (axil_maps w); reflexivity.
Qed.

Lemma C8_mapping_failure_exits_first_witness :
  exists evs,
    main default_config
         (mkWorld true false (fun _ => 0) 0 (fun _ => lit_0_5) 0 (fun _ => Byte.x00))
    = (Raised (SystemExit 1),
       mkWorld true false (fun _ => 0) 0 (fun _ => lit_0_5) 0 (fun _ => Byte.x00),
       evs) /\
    existsb touches_hardware evs = false.
Proof.
  destruct (C8_mapping_failure_exits_first default_config
              (mkWorld true false (fun _ => 0) 0 (fun _ => lit_0_5) 0
                       (fun _ => Byte.x00)))
    as [evs [Hrun [Hh _]]].
  - right. reflexivity.
  - exists evs. split; [exact Hrun | exact Hh].
Defined.

(* ===================================================================== *)
(** ** Further properties of the layout arithmetic                     *)
(* ===================================================================== *)

(** X1: the padding step makes the waveform byte length the least
    multiple of 64 that is not below [waveform_samples * SAMPLE_SIZE]: it
    is a multiple of 64 and adds fewer than 64 bytes. *)
Theorem X1_waveform_padding_is_minimal (cfg : Config) (ws : Z) :
  waveform_bytes cfg ws mod 64 = 0 /\
  ws * SAMPLE_SIZE cfg <= waveform_bytes cfg ws < ws * SAMPLE_SIZE cfg + 64.
Proof.
  split; [apply waveform_bytes_mod_64 |].
  unfold waveform_bytes, pad.
  generalize (ws * SAMPLE_SIZE cfg). intros b.
  pose proof (Z.mod_pos_bound (- b) 64 ltac:(lia)).
  destruct (Z.gtb_spec ((- b) mod 64) 0); lia.
Qed.

(** X2: with 2-byte samples and 128-byte bursts, the burst count times 128
    is the padded length or 64 bytes less; the bursts cover all the
    [2 * waveform_samples] bytes of the waveform exactly when the sample
    count modulo 64 is 0 or above 32. *)
Theorem X2_waveform_bursts_coverage (cfg : Config) (ws : Z) :
  SAMPLE_SIZE cfg = 2 -> BURST_BYTES cfg = 128 ->
  exists q,
    waveform_bursts cfg ws = Done q /\
    (q * 128 = waveform_bytes cfg ws \/ q * 128 = waveform_bytes cfg ws - 64) /\
    (2 * ws <= q * 128 <-> ws mod 64 = 0 \/ 32 < ws mod 64).
Proof.
  intros Hs Hb. unfold waveform_bursts, floordiv. rewrite Hb.
  simpl (128 =? 0). eexists. split; [reflexivity |].
  unfold waveform_bytes, pad. rewrite Hs.
  destruct (Z.gtb_spec ((- (ws * 2)) mod 64) 0);
    (split; [| split]); Z.div_mod_to_equations; lia.
Qed.

Lemma X2_waveform_bursts_coverage_witness :
  exists q,
    waveform_bursts default_config 125000 = Done q /\
    (q * 128 = waveform_bytes default_config 125000
     \/ q * 128 = waveform_bytes default_config 125000 - 64) /\
    (2 * 125000 <= q * 128 <-> 125000 mod 64 = 0 \/ 32 < 125000 mod 64).
Proof.
  apply (X2_waveform_bursts_coverage default_config 125000); reflexivity.
Defined.

(** X3: for every positive burst size the capture byte length is a
    multiple of the burst size, is not above the aligned sample count times
    the sample size, and falls short of it by less than one burst. *)
Theorem X3_capture_bytes_round_down (cfg : Config) (rs : Z) :
  0 < BURST_BYTES cfg ->
  exists nb,
    writer_num_bursts cfg rs = Done nb /\
    true_writer_bytes cfg nb mod BURST_BYTES cfg = 0 /\
    true_writer_bytes cfg nb <= relax_samples_aligned rs * SAMPLE_SIZE cfg
      < true_writer_bytes cfg nb + BURST_BYTES cfg.
Proof.
  intros Hb. unfold writer_num_bursts, floordiv, true_writer_bytes.
  destruct (Z.eqb_spec (BURST_BYTES cfg) 0) as [H0 | _]; [lia |].
  eexists. split; [reflexivity |].
  generalize (relax_samples_aligned rs * SAMPLE_SIZE cfg). intros a.
  split.
  - apply Z.mod_mul. lia.
  - pose proof (Z.div_mod a (BURST_BYTES cfg) ltac:(lia)).
    pose proof (Z.mod_pos_bound a (BURST_BYTES cfg) Hb). nia.
Qed.

Lemma X3_capture_bytes_round_down_witness :
  exists nb,
    writer_num_bursts default_config 10624 = Done nb /\
    true_writer_bytes default_config nb mod BURST_BYTES default_config = 0 /\
    true_writer_bytes default_config nb
      <= relax_samples_aligned 10624 * SAMPLE_SIZE default_config
      < true_writer_bytes default_config nb + BURST_BYTES default_config.
Proof.
  apply (X3_capture_bytes_round_down default_config 10624). simpl. lia.
Defined.

(* ===================================================================== *)
(** ** Signs of the float computations                                 *)
(* ===================================================================== *)

(** Rounding keeps the sign it is given. *)
Lemma binary_round_aux_sign (s : bool) (m e : Z) (l : location) :
  match binary_round_aux prec emax s m e l with
  | S754_zero s' | S754_infinity s' | S754_finite s' _ _ => s' = s
  | S754_nan => True
  end.
Proof.
  unfold binary_round_aux.
  destruct (shr_fexp prec emax m e l) as [mrs' e'].
  destruct (shr_fexp prec emax _ e' loc_Exact) as [mrs'' e''].
  destruct (shr_m mrs'') as [| p | p]; try exact I; try reflexivity.
  destruct (e'' <=? emax - prec); reflexivity.
Qed.

Lemma binary_round_sign (s : bool) (m : positive) (e : Z) :
  match binary_round prec emax s m e with
  | S754_zero s' | S754_infinity s' | S754_finite s' _ _ => s' = s
  | S754_nan => True
  end.
Proof.
  unfold binary_round.
  destruct (shl_align m e _) as [mz ez]. apply binary_round_aux_sign.
Qed.

Lemma int_of_float_sign (x : float) (n : Z) :
  int_of_float x = Done n ->
  (is_negative x = false -> 0 <= n) /\
  ((forall m e, x <> S754_finite false m e) -> n <= 0).
Proof.
  destruct x as [s | s | | s m e]; unfold int_of_float; try discriminate.
  - intros H; inversion H; lia.
  - intros H; inversion H; subst; clear H.
    assert (Ha : 0 <= match e with
                      | Z.neg p => Z.shiftr (Z.pos m) (Z.pos p)
                      | _ => Z.shiftl (Z.pos m) e
                      end).
    { destruct e; [apply Z.shiftl_nonneg | apply Z.shiftl_nonneg
                   | apply Z.shiftr_nonneg]; lia. }
    destruct s; simpl; split; intros H; try lia; try discriminate.
    exfalso. apply (H m e). reflexivity.
Qed.

(** The float of a non-positive int is not above zero. *)
Lemma float_of_int_nonpos (n : Z) (x : float) :
  n <= 0 -> float_of_int n = Done x ->
  forall m e, x <> S754_finite false m e.
Proof.
  intros Hn. unfold float_of_int, binary_normalize.
  destruct n as [| p | p]; [| lia |].
  - intros H; inversion H; discriminate.
  - pose proof (binary_round_sign true p 0) as Hs.
    destruct (binary_round prec emax true p 0) as [s | s | | s m e];
      intros H; inversion H; subst; discriminate.
Qed.

(** The float of a non-negative int is not below zero, and no negative
    zero. *)
Lemma float_of_int_nonneg (n : Z) (x : float) :
  0 <= n -> float_of_int n = Done x ->
  is_negative x = false /\ x <> S754_zero true.
Proof.
  intros Hn. unfold float_of_int, binary_normalize.
  destruct n as [| p | p]; [| | lia].
  - intros H; inversion H; split; [reflexivity | discriminate].
  - pose proof (binary_round_sign false p 0) as Hs.
    destruct (binary_round prec emax false p 0) as [s | s | | s m e];
      intros H; inversion H; subst; split; try reflexivity; discriminate.
Qed.

(** The product of two floats that are not below zero, and no negative
    zeros, is again such a float. *)
Lemma fmul_not_negative (x y : float) :
  is_negative x = false -> x <> S754_zero true ->
  is_negative y = false -> y <> S754_zero true ->
  is_negative (fmul x y) = false /\ fmul x y <> S754_zero true.
Proof.
  intros Hx Zx Hy Zy. unfold fmul, SFmul.
  destruct x as [sx | sx | | sx mx ex]; destruct y as [sy | sy | | sy my ey];
    try (split; [reflexivity | discriminate]);
    try (destruct sx; try discriminate; try (exfalso; apply Zx; reflexivity);
         destruct sy; try discriminate; try (exfalso; apply Zy; reflexivity);
         split; [reflexivity | discriminate]).
  destruct sx; [discriminate |]. destruct sy; [discriminate |].
  pose proof (binary_round_aux_sign (xorb false false) (Z.pos (mx * my))
                                    (ex + ey) loc_Exact) as Hs.
  destruct (binary_round_aux prec emax (xorb false false) (Z.pos (mx * my))
                             (ex + ey) loc_Exact) as [s | s | | s m e];
    simpl in *; subst; split; try reflexivity; discriminate.
Qed.

(** A float not below zero times a float not above zero is not above
    zero. *)
Lemma fmul_not_positive (x y : float) :
  is_negative x = false ->
  (forall m e, y <> S754_finite false m e) ->
  forall m e, fmul x y <> S754_finite false m e.
Proof.
  intros Hx Hy. unfold fmul, SFmul.
  destruct x as [sx | sx | | sx mx ex]; destruct y as [sy | sy | | sy my ey];
    try discriminate.
  destruct sx; [discriminate |].
  destruct sy; [| exfalso; apply (Hy my ey); reflexivity].
  pose proof (binary_round_aux_sign (xorb false true) (Z.pos (mx * my))
                                    (ex + ey) loc_Exact) as Hs.
  destruct (binary_round_aux prec emax (xorb false true) (Z.pos (mx * my))
                             (ex + ey) loc_Exact) as [s | s | | s m e];
    simpl in *; subst; discriminate.
Qed.

(** X4: with a sample rate of zero or below, and a duration that is not
    below zero, [N] is not positive whenever it is computed, so the
    generated waveform is empty. *)
Theorem X4_nonpositive_rate_gives_empty_waveform (cfg : Config) (n : Z) :
  SAMPLE_RATE cfg <= 0 ->
  is_negative (DURATION_S cfg) = false ->
  N cfg = Done n ->
  n <= 0 /\ waveform_len n = 0.
Proof.
  intros Hr Hd HN.
  assert (Hn : n <= 0).
  { unfold N, mul_float_int in HN.
    destruct (float_of_int (SAMPLE_RATE cfg)) as [fr | e] eqn:Hf;
      simpl in HN; [| discriminate].
    apply int_of_float_sign in HN. destruct HN as [_ HN]. apply HN.
    apply fmul_not_positive; [exact Hd |].
    apply (float_of_int_nonpos _ _ Hr Hf). }
  split; [exact Hn |]. unfold waveform_len. lia.
Qed.

Lemma X4_nonpositive_rate_gives_empty_waveform_witness :
  N (config_with_relaxation 3000 (-125000000)) = Done (-125000) /\
  waveform_len (-125000) = 0.
Proof.
  assert (H : N (config_with_relaxation 3000 (-125000000)) = Done (-125000))
    by (vm_compute; reflexivity).
  split; [exact H |].
  apply (X4_nonpositive_rate_gives_empty_waveform
           (config_with_relaxation 3000 (-125000000)) (-125000)).
  - vm_compute. discriminate.
  - reflexivity.
  - exact H.
Defined.

(** X5: with a relaxation time and a sample rate that are not negative,
    and positive sample and burst sizes, the raw relax-sample count, the
    capture burst count and the capture byte length are not negative. *)
Theorem X5_capture_size_not_negative (cfg : Config) (r : Z) :
  0 <= RELAXATION_TIME_US cfg -> 0 <= SAMPLE_RATE cfg ->
  0 < SAMPLE_SIZE cfg -> 0 < BURST_BYTES cfg ->
  relax_samples cfg = Done r ->
  0 <= r /\
  exists nb,
    writer_num_bursts cfg r = Done nb /\ 0 <= nb /\
    0 <= true_writer_bytes cfg nb.
Proof.
  intros Hus Hrate Hss Hbb Hr.
  assert (H0 : 0 <= r).
  { unfold relax_samples, relax_product, mul_int_float, mul_float_int in Hr.
    destruct (float_of_int (RELAXATION_TIME_US cfg)) as [fu | e] eqn:Hfu;
      simpl in Hr; [| discriminate].
    destruct (float_of_int (SAMPLE_RATE cfg)) as [fr | e] eqn:Hfr;
      simpl in Hr; [| discriminate].
    destruct (float_of_int_nonneg _ _ Hus Hfu) as [Hu1 Hu2].
    destruct (float_of_int_nonneg _ _ Hrate Hfr) as [Hr1 Hr2].
    apply int_of_float_sign in Hr. destruct Hr as [Hr _]. apply Hr.
    assert (Hl : is_negative lit_1e_6 = false /\ lit_1e_6 <> S754_zero true)
      by (split; [reflexivity | vm_compute; discriminate]).
    destruct Hl as [Hl1 Hl2].
    destruct (fmul_not_negative fu lit_1e_6 Hu1 Hu2 Hl1 Hl2) as [Hp1 Hp2].
    apply (fmul_not_negative _ fr Hp1 Hp2 Hr1 Hr2). }
  split; [exact H0 |].
  unfold writer_num_bursts, floordiv, true_writer_bytes.
  destruct (Z.eqb_spec (BURST_BYTES cfg) 0) as [Hz | _]; [lia |].
  eexists. split; [reflexivity |].
  pose proof (pad_relax_bounds r) as Hp.
  assert (Ha : 0 <= relax_samples_aligned r * SAMPLE_SIZE cfg)
    by (unfold relax_samples_aligned; nia).
  assert (Hq : 0 <= relax_samples_aligned r * SAMPLE_SIZE cfg / BURST_BYTES cfg)
    by (apply Z.div_pos; lia).
  split; [exact Hq | nia].
Qed.

Lemma X5_capture_size_not_negative_witness :
  0 <= 375000 /\
  exists nb,
    writer_num_bursts default_config 375000 = Done nb /\ 0 <= nb /\
    0 <= true_writer_bytes default_config nb.
Proof.
  apply (X5_capture_size_not_negative default_config 375000).
  - simpl. lia.
  - simpl. lia.
  - simpl. lia.
  - simpl. lia.
  - vm_compute. reflexivity.
Defined.

(* ===================================================================== *)
(** ** Further properties of the extraction loop                       *)
(* ===================================================================== *)

(** The range is empty when there is nothing to read. *)
Lemma py_range_empty (B c : Z) :
  B <= 0 -> 0 < c -> py_range 0 B c = [].
Proof.
  intros HB Hc. unfold py_range.
  assert (Hq : (B - 0 + c - 1) / c <= 0).
  { assert ((B - 0 + c - 1) / c < 1); [| lia].
    apply Z.div_lt_upper_bound; lia. }
  replace (Z.to_nat ((B - 0 + c - 1) / c)) with 0%nat by lia.
  reflexivity.
Qed.

Lemma last_cons_default (A : Type) (l : list A) :
  forall x d, last (x :: l) d = last l x.
Proof.
  induction l as [| y l IH]; intros x d; [reflexivity |].
  change (last (x :: y :: l) d) with (last (y :: l) d).
  rewrite (IH y d), (IH y x). reflexivity.
Qed.

(** The trace of the loop from chunk [i] on, whether or not a read is
    refused on the way. *)
Lemma extract_loop_trace (size rel B c : Z) (w : world) :
  0 < c ->
  forall (n i : nat) (acc : Z),
    (forall k, (i <= k < i + n)%nat -> Z.of_nat k * c < B) ->
    exists evs r,
      for_fold (map (fun k => 0 + Z.of_nat k * c) (seq i n))
               (extract_chunk size rel B c) acc w
      = (r, w, evs) /\
      (r = Done (last (map fst (progress_reports evs)) acc)
       \/ r = Raised ValueError) /\
      forallb extract_kind evs = true /\
      contiguous_from (rel + Z.of_nat i * c) (ram_reads evs) /\
      Forall (fun r => rel <= fst r /\ 0 < snd r <= c
                       /\ fst r + snd r <= rel + B) (ram_reads evs) /\
      map fst (progress_reports evs)
      = map (fun r => acc + (fst r + snd r - (rel + Z.of_nat i * c)))
            (ram_reads evs) /\
      increasing_from acc (map fst (progress_reports evs)) /\
      Forall (fun p => snd p = B) (progress_reports evs).
Proof.
  intros Hc. induction n as [| n IH]; intros i acc Hlt.
  - exists [], (Done acc). simpl. unfold ret.
    split; [reflexivity |]. split; [left; reflexivity |].
    repeat split; constructor.
  - assert (Hi : Z.of_nat i * c < B) by (apply Hlt; lia).
    set (rs := Z.min c (B - Z.of_nat i * c)).
    assert (Hrs : 0 < rs <= c) by (unfold rs; lia).
    destruct (Z.le_gt_cases (rel + Z.of_nat i * c + rs) size) as [Hfit | Hout].
    2: { exists [], (Raised ValueError).
         split.
         - cbn [seq map for_fold]. unfold bind at 1.
           change (0 + Z.of_nat i * c) with (Z.of_nat i * c).
           rewrite extract_chunk_fails by (fold rs; lia). reflexivity.
         - simpl. split; [right; reflexivity |].
           repeat split; constructor. }
    destruct (IH (S i) (acc + rs)) as
      [evs [r [Hrun [Hres [Hkind [Hcont [Hrange [Hprog [Hinc Hto]]]]]]]]].
    { intros k Hk. apply Hlt. lia. }
    assert (Hrest : n = 0%nat -> evs = []).
    { intros ->. simpl in Hrun. unfold ret in Hrun. inversion Hrun.
      reflexivity. }
    exists ([ EvRamRead (rel + Z.of_nat i * c) rs;
              EvFileWrite (ddr_slice (ddr w) (rel + Z.of_nat i * c) rs);
              EvPrint (Progress (acc + rs) B) ] ++ evs), r.
    change (ram_reads ([EvRamRead (rel + Z.of_nat i * c) rs;
                        EvFileWrite (ddr_slice (ddr w) (rel + Z.of_nat i * c) rs);
                        EvPrint (Progress (acc + rs) B)] ++ evs))
      with ((rel + Z.of_nat i * c, rs) :: ram_reads evs).
    change (progress_reports
              ([EvRamRead (rel + Z.of_nat i * c) rs;
                EvFileWrite (ddr_slice (ddr w) (rel + Z.of_nat i * c) rs);
                EvPrint (Progress (acc + rs) B)] ++ evs))
      with ((acc + rs, B) :: progress_reports evs).
    split; [| split; [| split; [| split; [| split; [| split; [| split]]]]]].
    + cbn [seq map for_fold]. unfold bind at 1.
      change (0 + Z.of_nat i * c) with (Z.of_nat i * c).
      rewrite extract_chunk_run by (fold rs; lia). fold rs.
      rewrite Hrun. reflexivity.
    + cbn [map fst]. rewrite last_cons_default. exact Hres.
    + cbn [app forallb extract_kind andb]. exact Hkind.
    + cbn [contiguous_from]. split; [reflexivity |].
      destruct n as [| n].
      * rewrite (Hrest eq_refl). exact I.
      * assert (Hnext : Z.of_nat (S i) * c < B) by (apply Hlt; lia).
        replace (rel + Z.of_nat i * c + rs) with (rel + Z.of_nat (S i) * c)
          by (unfold rs; lia).
        exact Hcont.
    + constructor; [| exact Hrange]. cbn [fst snd]. unfold rs in *. lia.
    + cbn [map fst snd]. f_equal; [lia |].
      rewrite Hprog.
      destruct n as [| n].
      * rewrite (Hrest eq_refl). reflexivity.
      * assert (Hnext : Z.of_nat (S i) * c < B) by (apply Hlt; lia).
        apply map_ext. intros [o l]. cbn [fst snd]. unfold rs. lia.
    + cbn [map fst increasing_from]. split; [lia | exact Hinc].
    + constructor; [reflexivity | exact Hto].
Qed.

Lemma chunk_offsets_below (B c : Z) :
  0 < c ->
  forall k, (0 <= k < 0 + Z.to_nat ((B - 0 + c - 1) / c))%nat ->
            Z.of_nat k * c < B.
Proof.
  intros Hc k Hk.
  destruct (Z.le_gt_cases 0 B) as [HB | HB].
  - destruct (chunk_count_bounds B c HB Hc) as [Hlt _]. apply Hlt. lia.
  - assert (Hq : (B - 0 + c - 1) / c < 1)
      by (apply Z.div_lt_upper_bound; lia).
    lia.
Qed.

(** The events of [extract] after the opening of the file are those of
    the loop. *)
Lemma extract_unfold (size rel B c : Z) (w : world) :
  extract size rel B c w
  = prepend [EvOpen OUT_RAW]
      (for_fold (map (fun k => 0 + Z.of_nat k * c)
                     (seq 0 (Z.to_nat ((B - 0 + c - 1) / c))))
                (extract_chunk size rel B c) 0 w).
Proof.
  unfold extract, bind, emit, py_range, prepend.
  destruct (for_fold _ _ 0 w) as [[r w'] e]. reflexivity.
Qed.

(** X6: for every positive chunk size the reads of the extraction loop
    start at the relative offset, follow one another without gap or
    overlap, have a positive size of at most the chunk size, and end within
    [bytes_to_read] bytes of the relative offset. *)
Theorem X6_extract_reads_stay_in_region (size rel B c : Z) (w : world) :
  0 < c ->
  contiguous_from rel (ram_reads (snd (extract size rel B c w))) /\
  Forall (fun r => rel <= fst r /\ 0 < snd r <= c /\ fst r + snd r <= rel + B)
         (ram_reads (snd (extract size rel B c w))).
Proof.
  intros Hc.
  destruct (extract_loop_trace size rel B c w Hc _ 0%nat 0
                               (chunk_offsets_below B c Hc))
    as [evs [r [Hrun [_ [_ [Hcont [Hrange _]]]]]]].
  rewrite extract_unfold, Hrun.
  change (ram_reads (snd (prepend [EvOpen OUT_RAW] (r, w, evs))))
    with (ram_reads evs).
  change (Z.of_nat 0 * c) with 0 in Hcont. rewrite Z.add_0_r in Hcont.
  split; assumption.
Qed.

Lemma X6_extract_reads_stay_in_region_witness :
  contiguous_from 64 (ram_reads (snd (extract 128 64 10 4 (plain_world 0)))) /\
  Forall (fun r => 64 <= fst r /\ 0 < snd r <= 4 /\ fst r + snd r <= 64 + 10)
         (ram_reads (snd (extract 128 64 10 4 (plain_world 0)))).
Proof.
  apply (X6_extract_reads_stay_in_region 128 64 10 4 (plain_world 0)). lia.
Defined.

(** X7: when there is nothing to read (a byte length of zero or below)
    the output file is opened and nothing else happens: no buffer read, no
    file write, no progress line, and [bytes_read] stays 0. *)
Theorem X7_extract_nothing_to_read (size rel B c : Z) (w : world) :
  B <= 0 -> 0 < c ->
  extract size rel B c w = (Done 0, w, [EvOpen OUT_RAW]).
Proof.
  intros HB Hc. unfold extract, bind, emit.
  rewrite (py_range_empty B c HB Hc). reflexivity.
Qed.

Lemma X7_extract_nothing_to_read_witness :
  extract 4194304 250048 0 (8 * 1024 * 1024) (plain_world 0)
  = (Done 0, plain_world 0, [EvOpen OUT_RAW]).
Proof.
  apply (X7_extract_nothing_to_read 4194304 250048 0 (8 * 1024 * 1024)
                                    (plain_world 0));
    lia.
Defined.


(* ===================================================================== *)
(** ** Further properties of [wait_done]                               *)
(* ===================================================================== *)

(** Within [fuel] iterations either none ends the loop or there is a first
    one that does. *)
Lemma first_decisive (w : world) (timeout_s : float) (fuel : nat) :
  (forall j, (j < fuel)%nat ->
             both_done w j = false /\ expired w timeout_s j = false) \/
  (exists k, (k < fuel)%nat /\
     (forall j, (j < k)%nat ->
                both_done w j = false /\ expired w timeout_s j = false) /\
     (both_done w k = true \/
      (both_done w k = false /\ expired w timeout_s k = true))).
Proof.
  induction fuel as [| fuel IH].
  - left. intros j Hj. lia.
  - destruct IH as [Hidle | [k [Hk Hdec]]].
    + destruct (both_done w fuel) eqn:Hd.
      * right. exists fuel. split; [lia |]. split; [exact Hidle |].
        left. exact Hd.
      * destruct (expired w timeout_s fuel) eqn:He.
        -- right. exists fuel. split; [lia |]. split; [exact Hidle |].
           right. split; assumption.
        -- left. intros j Hj.
           destruct (Nat.eq_dec j fuel) as [-> | Hne];
             [split; assumption | apply Hidle; lia].
    + right. exists k. split; [lia | exact Hdec].
Qed.

(** After [k] idle iterations the call stands at iteration [k]. *)
Lemma wait_done_reaches (w : world) (timeout_s poll_interval : float)
  (k f : nat) :
  sleep_check poll_interval = Done tt ->
  (forall j, (j < k)%nat ->
             both_done w j = false /\ expired w timeout_s j = false) ->
  wait_done (k + S f) timeout_s poll_interval w
  = prepend (idle_polls w poll_interval 0 k)
      (if both_done w k then
         (Done (Some (poll_reg w k 2, poll_reg w k 3)),
          advance (4 + 4 * k) (S k) w, poll_reads w k)
       else if expired w timeout_s k then
         (Raised (TimeoutError (poll_reg w k 2) (poll_reg w k 3)),
          advance (4 + 4 * k) (S (S k)) w, poll_reads w k)
       else
         prepend (poll_reads w k ++ [EvSleep poll_interval])
           (wait_done_loop f (entry_clock w) timeout_s poll_interval
                           (advance (4 + 4 * k) (S (S k)) w))).
Proof.
  intros Hs Hidle. rewrite wait_done_unfold.
  rewrite (wait_done_loop_idle _ _ _ Hs) by (intros j Hj; apply Hidle; lia).
  rewrite wait_done_loop_step, Hs. reflexivity.
Qed.

(** With a poll interval that [time.sleep] refuses, the call ends in its
    first iteration. *)
Lemma wait_done_bad_sleep (w : world) (timeout_s poll_interval : float)
  (f : nat) (e : exn) :
  sleep_check poll_interval = Raised e ->
  wait_done (S f) timeout_s poll_interval w
  = if both_done w 0 then
      (Done (Some (poll_reg w 0 2, poll_reg w 0 3)),
       advance 4 1 w, poll_reads w 0)
    else if expired w timeout_s 0 then
      (Raised (TimeoutError (poll_reg w 0 2) (poll_reg w 0 3)),
       advance 4 2 w, poll_reads w 0)
    else (Raised e, advance 4 2 w, poll_reads w 0).
Proof.
  intros Hs. rewrite wait_done_unfold, wait_done_loop_step, Hs. reflexivity.
Qed.

(** What [time.sleep] raises when it refuses a length. *)
Lemma sleep_check_errors (seconds : float) (e : exn) :
  sleep_check seconds = Raised e -> e = ValueError \/ e = OverflowError.
Proof.
  unfold sleep_check.
  destruct seconds; try (intros H; inversion H; left; reflexivity);
    match goal with
    | |- context [if ?b then _ else _] => destruct b
    end;
    try (intros H; inversion H; right; reflexivity);
    match goal with
    | |- context [if ?b then _ else _] => destruct b
    end;
    intros H; inversion H; left; reflexivity.
Qed.

(** X9: whatever the readings and the poll interval, a call of
    [wait_done] run for [fuel] iterations has one of three outcomes.  It is
    still polling only if no iteration saw both flags or timed out.  It
    returns pointers only if some iteration [k] was the first to end the
    loop and saw both flags set, and the pointers are those read in
    iteration [k].  It raises TimeoutError only if the first iteration to
    end the loop saw a flag clear and the timeout test fire, with the
    pointers of that iteration; the only other error is the one with which
    [time.sleep] refuses the poll interval, raised in the first iteration
    when that iteration neither saw both flags nor timed out. *)
Theorem X9_wait_done_outcomes (w : world) (timeout_s poll_interval : float)
  (fuel : nat) :
  match fst (fst (wait_done fuel timeout_s poll_interval w)) with
  | Done None =>
      forall j, (j < fuel)%nat ->
                both_done w j = false /\ expired w timeout_s j = false
  | Done (Some (wp, rp)) =>
      exists k, (k < fuel)%nat /\ both_done w k = true /\
        (forall j, (j < k)%nat ->
                   both_done w j = false /\ expired w timeout_s j = false) /\
        wp = poll_reg w k 2 /\ rp = poll_reg w k 3
  | Raised e =>
      (exists k, (k < fuel)%nat /\
         both_done w k = false /\ expired w timeout_s k = true /\
         (forall j, (j < k)%nat ->
                    both_done w j = false /\ expired w timeout_s j = false) /\
         e = TimeoutError (poll_reg w k 2) (poll_reg w k 3)) \/
      (sleep_check poll_interval = Raised e /\
       (e = ValueError \/ e = OverflowError) /\
       (0 < fuel)%nat /\
       both_done w 0 = false /\ expired w timeout_s 0 = false)
  end.
Proof.
  destruct (sleep_check poll_interval) as [[] | e0] eqn:Hs.
  - destruct (first_decisive w timeout_s fuel)
      as [Hidle | [k [Hk [Hidle Hdec]]]].
    + rewrite (wait_done_still_polling w timeout_s poll_interval fuel Hs Hidle).
      exact Hidle.
    + assert (Hf : exists f, fuel = (k + S f)%nat)
        by (exists (fuel - S k)%nat; lia).
      destruct Hf as [f ->].
      rewrite (wait_done_reaches w timeout_s poll_interval k f Hs Hidle).
      destruct Hdec as [Hd | [Hd He]].
      * rewrite Hd. simpl. exists k.
        repeat split; try assumption; apply Hidle; assumption.
      * rewrite Hd, He. simpl. left. exists k.
        repeat split; try assumption; apply Hidle; assumption.
  - destruct fuel as [| f].
    + simpl. intros j Hj. lia.
    + rewrite (wait_done_bad_sleep w timeout_s poll_interval f e0 Hs).
      destruct (both_done w 0) eqn:Hd.
      * simpl. exists 0%nat. repeat split; try lia; try assumption;
          intros j Hj; lia.
      * destruct (expired w timeout_s 0) eqn:He.
        -- simpl. left. exists 0%nat.
           repeat split; try lia; try assumption; intros j Hj; lia.
        -- simpl. right. split; [reflexivity |].
           split; [exact (sleep_check_errors _ _ Hs) |].
           split; [lia |]. split; reflexivity.
Qed.

Lemma truthy_land_1 (x : Z) : truthy (Z.land x 0x1) = Z.odd x.
Proof.
  unfold truthy. change 1 with (Z.ones 1). rewrite Z.land_ones by lia.
  change (2 ^ 1) with 2. rewrite Zmod_odd. destruct (Z.odd x); reflexivity.
Qed.

(** X10: [wait_done] looks at bit 0 of the two done registers only: two
    runs with the same clock readings and pointer readings, whose done
    readings agree in parity, return the same pointers or raise the same
    error. *)
Theorem X10_wait_done_reads_bit_zero_only (w w' : world)
  (timeout_s poll_interval : float) (fuel : nat) :
  entry_clock w = entry_clock w' ->
  (forall j, poll_clock w j = poll_clock w' j) ->
  (forall j, Z.odd (poll_reg w j 0) = Z.odd (poll_reg w' j 0) /\
             Z.odd (poll_reg w j 1) = Z.odd (poll_reg w' j 1) /\
             poll_reg w j 2 = poll_reg w' j 2 /\
             poll_reg w j 3 = poll_reg w' j 3) ->
  fst (fst (wait_done fuel timeout_s poll_interval w))
  = fst (fst (wait_done fuel timeout_s poll_interval w')).
Proof.
  intros Ht0 Hclk Hreg.
  assert (Hbd : forall j, both_done w j = both_done w' j).
  { intros j. unfold both_done. rewrite !truthy_land_1.
    destruct (Hreg j) as [H0 [H1 _]]. rewrite H0, H1. reflexivity. }
  assert (Hex : forall j, expired w timeout_s j = expired w' timeout_s j).
  { intros j. unfold expired. rewrite Ht0, Hclk. reflexivity. }
  destruct (sleep_check poll_interval) as [[] | e0] eqn:Hs.
  - destruct (first_decisive w timeout_s fuel)
      as [Hidle | [k [Hk [Hidle Hdec]]]].
    + rewrite (wait_done_still_polling w timeout_s poll_interval fuel Hs Hidle).
      rewrite (wait_done_still_polling w' timeout_s poll_interval fuel Hs).
      * reflexivity.
      * intros j Hj. rewrite <- Hbd, <- Hex. apply Hidle. exact Hj.
    + assert (Hidle' : forall j, (j < k)%nat ->
                both_done w' j = false /\ expired w' timeout_s j = false).
      { intros j Hj. rewrite <- Hbd, <- Hex. apply Hidle. exact Hj. }
      assert (Hf : exists f, fuel = (k + S f)%nat)
        by (exists (fuel - S k)%nat; lia).
      destruct Hf as [f ->].
      rewrite (wait_done_reaches w timeout_s poll_interval k f Hs Hidle).
      rewrite (wait_done_reaches w' timeout_s poll_interval k f Hs Hidle').
      rewrite <- Hbd, <- Hex.
      destruct (Hreg k) as [_ [_ [H2 H3]]].
      destruct Hdec as [Hd | [Hd He]].
      * rewrite Hd. simpl. rewrite H2, H3. reflexivity.
      * rewrite Hd, He. simpl. rewrite H2, H3. reflexivity.
  - destruct fuel as [| f]; [reflexivity |].
    rewrite (wait_done_bad_sleep w timeout_s poll_interval f e0 Hs).
    rewrite (wait_done_bad_sleep w' timeout_s poll_interval f e0 Hs).
    rewrite <- Hbd, <- Hex.
    destruct (Hreg 0%nat) as [_ [_ [H2 H3]]].
    destruct (both_done w 0); [simpl; rewrite H2, H3; reflexivity |].
    destruct (expired w timeout_s 0); simpl; [rewrite H2, H3 |]; reflexivity.
Qed.

(** X11: with a timeout that is a NaN or plus infinity the timeout test
    never fires, so [wait_done] never raises TimeoutError; with a poll
    interval that [time.sleep] accepts it never raises at all. *)
Theorem X11_wait_done_unbounded_timeout (w : world)
  (timeout_s poll_interval : float) (fuel : nat) :
  timeout_s = S754_nan \/ timeout_s = S754_infinity false ->
  (forall wp rp,
      fst (fst (wait_done fuel timeout_s poll_interval w))
      <> Raised (TimeoutError wp rp)) /\
  (sleep_check poll_interval = Done tt ->
   forall e, fst (fst (wait_done fuel timeout_s poll_interval w)) <> Raised e).
Proof.
  intros Hto.
  assert (Hne : forall j, expired w timeout_s j = false).
  { intros j. unfold expired, fgt.
    destruct Hto as [-> | ->];
      destruct (fsub (poll_clock w j) (entry_clock w)) as [s | s | | s m x];
      try reflexivity; destruct s; reflexivity. }
  assert (Hvalid : sleep_check poll_interval = Done tt ->
            forall e, fst (fst (wait_done fuel timeout_s poll_interval w))
                      <> Raised e).
  { intros Hs e.
    destruct (first_decisive w timeout_s fuel)
      as [Hidle | [k [Hk [Hidle Hdec]]]].
    - rewrite (wait_done_still_polling w timeout_s poll_interval fuel Hs Hidle).
      discriminate.
    - assert (Hf : exists f, fuel = (k + S f)%nat)
        by (exists (fuel - S k)%nat; lia).
      destruct Hf as [f ->].
      rewrite (wait_done_reaches w timeout_s poll_interval k f Hs Hidle).
      destruct Hdec as [Hd | [Hd He]].
      + rewrite Hd. simpl. discriminate.
      + rewrite Hne in He. discriminate. }
  split; [| exact Hvalid].
  intros wp rp.
  destruct (sleep_check poll_interval) as [[] | e0] eqn:Hs.
  - apply Hvalid. reflexivity.
  - destruct fuel as [| f]; [simpl; discriminate |].
    rewrite (wait_done_bad_sleep w timeout_s poll_interval f e0 Hs).
    rewrite Hne.
    destruct (both_done w 0); simpl; [discriminate |].
    destruct (sleep_check_errors _ _ Hs) as [-> | ->]; discriminate.
Qed.

(** X17: a poll interval that [time.sleep] refuses (a negative or NaN
    length, or one too large) ends the call in its first iteration: unless
    that iteration sees both flags set or times out, [wait_done] raises
    the error of [time.sleep] after the four register reads of the
    iteration, and no sleep takes place. *)
Theorem X17_wait_done_refused_poll_interval (w : world)
  (timeout_s poll_interval : float) (fuel : nat) (e : exn) :
  sleep_check poll_interval = Raised e ->
  (0 < fuel)%nat ->
  both_done w 0 = false ->
  expired w timeout_s 0 = false ->
  wait_done fuel timeout_s poll_interval w
  = (Raised e, advance 4 2 w, poll_reads w 0) /\
  (e = ValueError \/ e = OverflowError).
Proof.
  intros Hs Hf Hd He.
  destruct fuel as [| f]; [lia |].
  rewrite (wait_done_bad_sleep w timeout_s poll_interval f e Hs), Hd, He.
  split; [reflexivity | exact (sleep_check_errors _ _ Hs)].
Qed.

Lemma X10_wait_done_reads_bit_zero_only_witness :
  fst (fst (wait_done 5 lit_30_0 lit_0_05 two_poll_world))
  = fst (fst (wait_done 5 lit_30_0 lit_0_05 two_poll_world_high_bits)).
Proof.
  apply (X10_wait_done_reads_bit_zero_only two_poll_world
           two_poll_world_high_bits lit_30_0 lit_0_05 5).
  - reflexivity.
  - intros j. reflexivity.
  - intros j. unfold poll_reg. cbn [reg_in reg_pos two_poll_world
                                   two_poll_world_high_bits].
    destruct j as [| [| j]].
    + repeat split; reflexivity.
    + repeat split; reflexivity.
    + rewrite !nth_overflow by (simpl; lia). repeat split; reflexivity.
Defined.

Lemma X11_wait_done_unbounded_timeout_witness :
  (forall wp rp,
      fst (fst (wait_done 3 (S754_infinity false) lit_0_05 (plain_world 0)))
      <> Raised (TimeoutError wp rp)) /\
  (forall e,
      fst (fst (wait_done 3 (S754_infinity false) lit_0_05 (plain_world 0)))
      <> Raised e).
Proof.
  destruct (X11_wait_done_unbounded_timeout (plain_world 0)
              (S754_infinity false) lit_0_05 3 (or_intror eq_refl))
    as [Hto Hall].
  split; [exact Hto |].
  apply Hall. vm_compute. reflexivity.
Defined.

Lemma X17_wait_done_refused_poll_interval_witness :
  sleep_check (f64 (-1) 0) = Raised ValueError /\
  wait_done 5 lit_30_0 (f64 (-1) 0) late_world
  = (Raised ValueError, advance 4 2 late_world, poll_reads late_world 0).
Proof.
  assert (Hs : sleep_check (f64 (-1) 0) = Raised ValueError)
    by (vm_compute; reflexivity).
  split; [exact Hs |].
  destruct (X17_wait_done_refused_poll_interval late_world lit_30_0
              (f64 (-1) 0) 5 ValueError Hs ltac:(lia)) as [Hrun _].
  - vm_compute. reflexivity.
  - vm_compute. reflexivity.
  - exact Hrun.
Defined.
(* ===================================================================== *)
(** ** The script after the waveform write                             *)
(* ===================================================================== *)

(** When the capture region ends beyond the mapping, the loop from chunk
    [i] on ends in a refused read. *)
Lemma extract_loop_fails (size rel B c : Z) (w : world) :
  0 < c -> size < rel + B ->
  forall (n i : nat) (acc : Z),
    (0 < n)%nat ->
    (forall k, (i <= k < i + n)%nat -> Z.of_nat k * c < B) ->
    B <= Z.of_nat (i + n) * c ->
    exists evs,
      for_fold (map (fun k => 0 + Z.of_nat k * c) (seq i n))
               (extract_chunk size rel B c) acc w
      = (Raised ValueError, w, evs).
Proof.
  intros Hc Hout. induction n as [| n IH]; intros i acc Hn Hlt Hge; [lia |].
  assert (Hi : Z.of_nat i * c < B) by (apply Hlt; lia).
  set (rs := Z.min c (B - Z.of_nat i * c)).
  cbn [seq map for_fold]. unfold bind at 1.
  change (0 + Z.of_nat i * c) with (Z.of_nat i * c).
  destruct (Z.le_gt_cases (rel + Z.of_nat i * c + rs) size) as [Hfit | Hbad].
  - rewrite extract_chunk_run by (fold rs; lia). fold rs.
    assert (Hrs : rs = c) by (unfold rs in *; lia).
    assert (Hn' : (0 < n)%nat).
    { destruct n as [| n]; [| lia].
      replace (i + 1)%nat with (S i) in Hge by lia. unfold rs in *. lia. }
    destruct (IH (S i) (acc + rs) Hn') as [evs Hrun].
    { intros k Hk. apply Hlt. lia. }
    { replace (S i + n)%nat with (i + S n)%nat by lia. exact Hge. }
    rewrite Hrun. eexists. reflexivity.
  - rewrite extract_chunk_fails by (fold rs; lia).
    eexists. reflexivity.
Qed.

Lemma extract_kind_facts (evs : list event) :
  forallb extract_kind evs = true ->
  reg_writes evs = [] /\ ram_writes evs = [] /\ json_dumps evs = [] /\
  existsb is_close evs = false /\
  hardware_accesses evs
  = map (fun r => EvRamRead (fst r) (snd r)) (ram_reads evs).
Proof.
  induction evs as [| e evs IH]; [repeat split; reflexivity |].
  simpl. intros H. apply andb_true_iff in H. destruct H as [He H].
  destruct (IH H) as [H1 [H2 [H3 [H4 H5]]]].
  unfold hardware_accesses in *.
  destruct e; try discriminate; simpl; rewrite ?H5; repeat split; assumption.
Qed.

Lemma extract_kind_calm (evs : list event) :
  forallb extract_kind evs = true -> forallb calm evs = true.
Proof.
  induction evs as [| e evs IH]; [reflexivity |].
  simpl. intros H. apply andb_true_iff in H. destruct H as [He H].
  rewrite (IH H). destruct e; try discriminate; reflexivity.
Qed.

Lemma calm_facts (evs : list event) :
  forallb calm evs = true ->
  reg_reads evs = [] /\ existsb is_close evs = false.
Proof.
  induction evs as [| e evs IH]; [split; reflexivity |].
  simpl. intros H. apply andb_true_iff in H. destruct H as [He H].
  destruct (IH H) as [H1 H2].
  destruct e; try discriminate; simpl; split; assumption.
Qed.

(** [extract] in full: the file is opened, then the loop runs to the end,
    which it does when there is nothing to read or the region lies within
    the mapping, or it ends in a refused read. *)
Lemma extract_cases (size rel B c : Z) (w : world) :
  0 < c ->
  (exists loop,
      extract size rel B c w = (Done (Z.max 0 B), w, EvOpen OUT_RAW :: loop) /\
      (B <= 0 \/ rel + B <= size) /\
      forallb extract_kind loop = true /\
      ram_reads loop = chunk_reads rel B c (py_range 0 B c) /\
      file_bytes loop = ddr_slice (ddr w) rel B)
  \/
  (exists loop,
      extract size rel B c w = (Raised ValueError, w, EvOpen OUT_RAW :: loop) /\
      0 < B /\ size < rel + B /\
      forallb extract_kind loop = true).
Proof.
  intros Hc.
  destruct (Z.le_gt_cases B 0) as [HB0 | HBpos].
  { left. exists [].
    split.
    { unfold extract, bind, emit. rewrite (py_range_empty B c HB0 Hc).
      replace (Z.max 0 B) with 0 by lia. reflexivity. }
    split; [left; exact HB0 |]. split; [reflexivity |]. split.
    - rewrite (py_range_empty B c HB0 Hc). reflexivity.
    - rewrite ddr_slice_nonpos by exact HB0. reflexivity. }
  destruct (extract_loop_trace size rel B c w Hc _ 0%nat 0
                               (chunk_offsets_below B c Hc))
    as [evs [r [Hrun [_ [Hkind _]]]]].
  destruct (chunk_count_bounds B c ltac:(lia) Hc) as [Hlt Hge].
  destruct (Z.le_gt_cases (rel + B) size) as [Hfit | Hout].
  - left.
    destruct (extract_loop size rel B c w Hc Hfit
                (Z.to_nat ((B - 0 + c - 1) / c)) 0%nat 0)
      as [evs' [Hrun' [Hby [Hrd _]]]].
    { intros k Hk. apply Hlt. lia. }
    { exact Hge. }
    assert (Heq := Hrun). rewrite Hrun' in Heq. injection Heq as Hr He.
    subst evs' r.
    change (Z.of_nat 0 * c) with 0 in *.
    rewrite Z.add_0_r in Hby.
    replace (Z.max 0 (B - 0)) with B in * by lia.
    exists evs. split.
    { rewrite extract_unfold, Hrun.
      replace (Z.max 0 B) with B by lia. reflexivity. }
    split; [right; exact Hfit |]. split; [exact Hkind |].
    split; [exact Hrd | exact Hby].
  - right.
    destruct (extract_loop_fails size rel B c w Hc Hout
                (Z.to_nat ((B - 0 + c - 1) / c)) 0%nat 0)
      as [evs' Hrun'].
    { destruct (Z.to_nat ((B - 0 + c - 1) / c)); [simpl in Hge |]; lia. }
    { intros k Hk. apply Hlt. lia. }
    { exact Hge. }
    assert (Heq := Hrun). rewrite Hrun' in Heq. injection Heq as Hr He.
    subst evs' r.
    exists evs. split; [rewrite extract_unfold, Hrun; reflexivity |].
    split; [exact HBpos |]. split; [exact Hout | exact Hkind].
Qed.

Lemma u32_spec (v : Z) : u32 v = true <-> 0 <= v <= 0xFFFFFFFF.
Proof. unfold u32. rewrite andb_true_iff, !Z.leb_le. reflexivity. Qed.

(** STEP 8 in full: the ten writes, unless one of the six values that
    come from the configuration and the layout is refused, which ends the
    step after the writes before it. *)
Lemma configure_cases (cfg : Config) (L : Layout) (w : world) :
  (configure cfg L w = (Done tt, w, configure_events cfg L) /\
   forallb (fun rv => u32 (snd rv)) (configure_writes cfg L) = true)
  \/
  (exists evs done rv rest,
      configure cfg L w = (Raised ValueError, w, evs) /\
      forallb calm evs = true /\
      reg_writes evs = done /\
      configure_writes cfg L = done ++ rv :: rest /\
      hardware_accesses evs = map (fun x => EvWrite32 (fst x) (snd x)) done /\
      forallb (fun x => u32 (snd x)) done = true /\
      u32 (snd rv) = false).
Proof.
  unfold configure, bind, write32, print, emit, configure_events,
    configure_writes.
  cbn [forallb snd map app].
  destruct (u32 (RAM_BASE cfg)) eqn:H1.
  2: { right. do 4 eexists. split; [reflexivity |].
       do 4 (split; [reflexivity |]). split; [reflexivity | exact H1]. }
  destruct (u32 (l_waveform_bursts L)) eqn:H2.
  2: { right. do 4 eexists. split; [reflexivity |].
       do 4 (split; [reflexivity |]).
       split; [cbn -[u32]; rewrite H1; reflexivity | exact H2]. }
  destruct (u32 (l_writer_offset L)) eqn:H3.
  2: { right. do 4 eexists. split; [reflexivity |].
       do 4 (split; [reflexivity |]).
       split; [cbn -[u32]; rewrite H1, H2; reflexivity | exact H3]. }
  destruct (u32 (l_writer_num_bursts L)) eqn:H4.
  2: { right. do 4 eexists. split; [reflexivity |].
       do 4 (split; [reflexivity |]).
       split; [cbn -[u32]; rewrite H1, H2, H3; reflexivity
              | exact H4]. }
  destruct (u32 (EXCITATION_TIME_US cfg)) eqn:H5.
  2: { right. do 4 eexists. split; [reflexivity |].
       do 4 (split; [reflexivity |]).
       split; [cbn -[u32]; rewrite H1, H2, H3, H4; reflexivity
              | exact H5]. }
  destruct (u32 (RELAXATION_TIME_US cfg)) eqn:H6.
  2: { right. do 4 eexists. split; [reflexivity |].
       do 4 (split; [reflexivity |]).
       split; [cbn -[u32]; rewrite H1, H2, H3, H4, H5; reflexivity
              | exact H6]. }
  left. split; reflexivity.
Qed.

Lemma shutdown_run (w : world) : shutdown w = (Done tt, w, shutdown_events).
Proof. reflexivity. Qed.

(** Lines 319 to 334 in full: each sleep length may fail to compute or be
    refused by [time.sleep]. *)
Lemma run_measurement_cases (cfg : Config) (ws : Z) (w : world) :
  run_measurement cfg ws w
  = match mul_int_float (EXCITATION_TIME_US cfg) lit_1e_6 with
    | Raised e => (Raised e, w, release_events)
    | Done ex =>
        match sleep_check ex with
        | Raised e => (Raised e, w, release_events)
        | Done _ =>
            match mul_int_float (RELAXATION_TIME_US cfg) lit_1e_6 with
            | Raised e =>
                (Raised e, w,
                 release_events
                 ++ [EvSleep ex; EvRamWrite 0 (ZeroBytes (2 * ws))])
            | Done rx =>
                match sleep_check rx with
                | Raised e =>
                    (Raised e, w,
                     release_events
                     ++ [EvSleep ex; EvRamWrite 0 (ZeroBytes (2 * ws))])
                | Done _ => (Done tt, w, run_events ws ex rx)
                end
            end
        end
    end.
Proof.
  unfold run_measurement, bind, lift, emit, write32, print, sleep, ram_write.
  cbn [u32 Z.leb Z.compare andb].
  destruct (mul_int_float (EXCITATION_TIME_US cfg) lit_1e_6) as [ex | e];
    [| reflexivity].
  destruct (sleep_check ex) as [[] | e]; [| reflexivity].
  destruct (mul_int_float (RELAXATION_TIME_US cfg) lit_1e_6) as [rx | e];
    [| reflexivity].
  destruct (sleep_check rx) as [[] | e]; reflexivity.
Qed.

Lemma write_metadata_run (cfg : Config) (L : Layout) (w : world) :
  write_metadata cfg L w = (Done tt, w, metadata_events cfg L).
Proof. reflexivity. Qed.

(** The ways in which lines 278 to 430 can go: to the end, with every
    configured value accepted by [write32], both sleep lengths accepted by
    [time.sleep] and the capture region read in full, or to an error before
    any mapping is closed, the world being left as it was. *)
Lemma acquire_cases (cfg : Config) (ws : Z) (L : Layout) (w : world) :
  (exists ex rx loop,
      acquire cfg ws L w
      = (Done tt, w, acquire_events cfg ws L ex rx loop) /\
      forallb (fun rv => u32 (snd rv)) (configure_writes cfg L) = true /\
      mul_int_float (EXCITATION_TIME_US cfg) lit_1e_6 = Done ex /\
      sleep_check ex = Done tt /\
      mul_int_float (RELAXATION_TIME_US cfg) lit_1e_6 = Done rx /\
      sleep_check rx = Done tt /\
      (l_true_writer_bytes L <= 0
       \/ l_writer_offset_rel L + l_true_writer_bytes L <= RAM_SIZE cfg) /\
      forallb extract_kind loop = true /\
      ram_reads loop
      = chunk_reads (l_writer_offset_rel L) (l_true_writer_bytes L)
                    (8 * 1024 * 1024)
                    (py_range 0 (l_true_writer_bytes L) (8 * 1024 * 1024)) /\
      file_bytes loop
      = ddr_slice (ddr w) (l_writer_offset_rel L) (l_true_writer_bytes L))
  \/
  (exists e evs,
      acquire cfg ws L w = (Raised e, w, evs) /\
      forallb calm evs = true).
Proof.
  destruct (acquire cfg ws L w) as [[r w'] evs] eqn:Hacq.
  unfold acquire, bind at 1 in Hacq.
  destruct (configure_cases cfg L w)
    as [[Hc Hu] | [evs0 [done [rv [rest [Hc [Hcalm _]]]]]]];
    rewrite Hc in Hacq.
  2: { right. injection Hacq as <- <- <-.
       exists ValueError, evs0. split; [reflexivity | exact Hcalm]. }
  unfold bind at 1 in Hacq. rewrite run_measurement_cases in Hacq.
  destruct (mul_int_float (EXCITATION_TIME_US cfg) lit_1e_6) as [ex | e].
  2: { right. injection Hacq as <- <- <-.
       eexists. eexists. split; reflexivity. }
  destruct (sleep_check ex) as [[] | e] eqn:Hsx.
  2: { right. injection Hacq as <- <- <-.
       eexists. eexists. split; reflexivity. }
  destruct (mul_int_float (RELAXATION_TIME_US cfg) lit_1e_6) as [rx | e].
  2: { right. injection Hacq as <- <- <-.
       eexists. eexists. split; reflexivity. }
  destruct (sleep_check rx) as [[] | e] eqn:Hsr.
  2: { right. injection Hacq as <- <- <-.
       eexists. eexists. split; reflexivity. }
  unfold bind at 1, print at 1, emit at 1 in Hacq. unfold bind at 1 in Hacq.
  destruct (extract_cases (RAM_SIZE cfg) (l_writer_offset_rel L)
              (l_true_writer_bytes L) (8 * 1024 * 1024) w ltac:(lia))
    as [[loop [Hex [Hfit [Hk [Hrd Hby]]]]] | [loop [Hex [_ [_ Hk]]]]];
    rewrite Hex in Hacq.
  - left. exists ex, rx, loop.
    unfold bind, print, emit in Hacq.
    rewrite write_metadata_run, shutdown_run in Hacq.
    injection Hacq as <- <- <-.
    split.
    { unfold acquire_events, run_events. rewrite <- ?app_assoc.
      reflexivity. }
    repeat (split; [assumption || reflexivity |]). exact Hby.
  - right. injection Hacq as <- <- <-.
    eexists. eexists. split; [reflexivity |].
    cbn [forallb calm andb]. apply extract_kind_calm. exact Hk.
Qed.

(** The four ways in which the script can go on after the identity
    check. *)
Lemma after_identity_outcomes (cfg : Config) (u : world) :
  (exists e,
     N cfg = Raised e /\
     after_identity cfg u
     = (Raised e, u,
        reset_events ++ [ EvPrint (Text "Generating excitation waveform...");
                          EvPrint (Text "Generating excitation waveform...") ]))
  \/
  (exists n e prints,
     N cfg = Done n /\ plan cfg (waveform_len n) = Raised e /\
     forallb is_print prints = true /\
     after_identity cfg u
     = (Raised e, u,
        reset_events ++ generate_events (waveform_len n) ++ prints))
  \/
  (exists n L prints,
     N cfg = Done n /\ 0 < n /\ plan cfg n = Done L /\
     forallb is_print prints = true /\
     after_identity cfg u
     = (Raised TypeError, u,
        reset_events ++ generate_events n ++ prints
        ++ [EvPrint (Text "Writing excitation waveform to DDR...")]))
  \/
  (exists n L prints,
     N cfg = Done n /\ n <= 0 /\ plan cfg 0 = Done L /\
     forallb is_print prints = true /\
     after_identity cfg u
     = prepend (reset_events ++ generate_events 0 ++ prints
                ++ [ EvPrint (Text "Writing excitation waveform to DDR...");
                     EvPrint (Text "Waveform written.") ])
               (acquire cfg 0 L u)).
Proof.
  destruct (N cfg) as [n | e] eqn:HN.
  - destruct (layout_phase_plan cfg (waveform_len n) u)
      as [prints [Hl [Hp _]]].
    assert (Hpre : forall k : Z -> Layout -> M unit,
      (reset_device ;; ws <- generate_waveform cfg ;;
       L <- layout_phase cfg ws ;; k ws L) u
      = match plan cfg (waveform_len n) with
        | Raised e =>
            (Raised e, u,
             reset_events ++ generate_events (waveform_len n) ++ prints)
        | Done L =>
            prepend (reset_events ++ generate_events (waveform_len n) ++ prints)
                    (k (waveform_len n) L u)
        end).
    { intros k. unfold bind.
      rewrite reset_device_run, (generate_waveform_run cfg n u HN), Hl.
      destruct (plan cfg (waveform_len n)) as [L | e]; [| reflexivity].
      destruct (k (waveform_len n) L u) as [[r u'] evs].
      unfold prepend, generate_events. rewrite <- !app_assoc. reflexivity. }
    change (after_identity cfg u)
      with ((reset_device ;; ws <- generate_waveform cfg ;;
             L <- layout_phase cfg ws ;;
             (fun ws L => write_waveform ws ;; acquire cfg ws L) ws L) u).
    rewrite Hpre.
    destruct (plan cfg (waveform_len n)) as [L | e] eqn:Hplan.
    + destruct (Z.lt_ge_cases 0 n) as [Hpos | Hle].
      * right. right. left. exists n, L, prints.
        assert (Hw : waveform_len n = n) by (unfold waveform_len; lia).
        rewrite Hw in *.
        split; [reflexivity |]. split; [exact Hpos |].
        split; [exact Hplan |]. split; [exact Hp |].
        unfold bind. rewrite (write_waveform_raises n u Hpos).
        unfold prepend. rewrite <- !app_assoc. reflexivity.
      * right. right. right. exists n, L, prints.
        assert (Hw : waveform_len n = 0) by (unfold waveform_len; lia).
        rewrite Hw in *.
        split; [reflexivity |]. split; [exact Hle |].
        split; [exact Hplan |]. split; [exact Hp |].
        unfold bind. rewrite write_waveform_empty.
        destruct (acquire cfg 0 L u) as [[r u'] evs].
        unfold prepend. rewrite <- !app_assoc. reflexivity.
    + right. left. exists n, e, prints.
      split; [reflexivity |]. split; [exact Hplan |]. split; [exact Hp |].
      reflexivity.
  - left. exists e. split; [reflexivity |].
    unfold after_identity, bind. rewrite reset_device_run.
    unfold generate_waveform, bind, print, emit, lift. rewrite HN.
    reflexivity.
Qed.

(* ===================================================================== *)
(** ** Whole runs of the script                                        *)
(* ===================================================================== *)

Lemma prints_close_nothing (evs : list event) :
  forallb is_print evs = true ->
  existsb is_close evs = false /\ hardware_accesses evs = [] /\
  file_bytes evs = [] /\ json_dumps evs = [].
Proof.
  induction evs as [| e evs IH]; [repeat split; reflexivity |].
  simpl. intros H. apply andb_true_iff in H. destruct H as [He H].
  destruct (IH H) as [H1 [H2 [H3 H4]]]. unfold hardware_accesses in *.
  destruct e; try discriminate. simpl. repeat split; assumption.
Qed.

(** The script up to the end of the identity check. *)
Lemma main_unfold (cfg : Config) (w : world) :
  main cfg w
  = if axil_maps w && ram_maps w then
      match decode_identity (reg_in w (reg_pos w)) with
      | Raised e =>
          (Raised e, next_reg w,
           mapping_events cfg
           ++ [ EvPrint (Text "Checking FPGA identity constant...");
                EvRead32 MLA_CONST_REG (reg_in w (reg_pos w)) ])
      | Done magic_str =>
          prepend (mapping_events cfg
                   ++ identity_events (reg_in w (reg_pos w)) magic_str
                        (if (magic_str =? expected_magic)%string then []
                         else map EvPrint (identity_warning magic_str)))
                  (after_identity cfg (next_reg w))
      end
    else
      (Raised (SystemExit 1), w,
       EvPrint (Text "Mapping FPGA memory regions...")
         :: (if axil_maps w then [EvMap (AXIL_BASE cfg) (AXIL_SIZE cfg)] else [])
         ++ [EvPrint (MapFailed MMIOError)]).
Proof.
  destruct (axil_maps w) eqn:Ha; destruct (ram_maps w) eqn:Hr; simpl andb.
  - destruct (decode_identity (reg_in w (reg_pos w))) as [magic_str | e] eqn:Hd.
    + apply main_after_identity; assumption.
    + unfold main, bind at 1. rewrite (map_regions_ok cfg w Ha Hr).
      unfold bind, identity_check, bind, print, emit, read32, lift.
      rewrite Hd. reflexivity.
  - unfold main, bind at 1.
    rewrite (map_regions_fail cfg w (or_intror Hr)), Ha. reflexivity.
  - unfold main, bind at 1.
    rewrite (map_regions_fail cfg w (or_introl Ha)), Ha. reflexivity.
  - unfold main, bind at 1.
    rewrite (map_regions_fail cfg w (or_introl Ha)), Ha. reflexivity.
Qed.

Lemma identity_events_quiet (v : Z) (magic_str : string) :
  let evs := identity_events v magic_str
               (if (magic_str =? expected_magic)%string then []
                else map EvPrint (identity_warning magic_str)) in
  reg_writes evs = [] /\ existsb is_close evs = false.
Proof.
  unfold identity_events.
  destruct (magic_str =? expected_magic)%string; split; reflexivity.
Qed.

(** X14: in every run of the script, with any surroundings and any
    configuration, if the reset is released (0 written to SOFT_RESET_REG)
    then [N] was computed and is not positive: with a non-empty waveform the
    measurement is never started. *)
Theorem X14_reset_released_only_for_empty_waveform (cfg : Config) (w : world) :
  In (SOFT_RESET_REG, 0) (reg_writes (snd (main cfg w))) ->
  exists n, N cfg = Done n /\ n <= 0.
Proof.
  rewrite main_unfold.
  destruct (axil_maps w && ram_maps w).
  2: { destruct (axil_maps w); simpl; tauto. }
  destruct (decode_identity (reg_in w (reg_pos w))) as [magic_str | e].
  2: { simpl; tauto. }
  destruct (identity_events_quiet (reg_in w (reg_pos w)) magic_str) as [Hq _].
  assert (Hreset : ~ In (SOFT_RESET_REG, 0) reset_writes).
  { vm_compute. intuition discriminate. }
  destruct (after_identity_outcomes cfg (next_reg w))
    as [[e [HN Hrun]] | [[n [e [prints [HN [_ [Hp Hrun]]]]]]
        | [[n [L [prints [HN [_ [_ [Hp Hrun]]]]]]]
           | [n [L [prints [HN [Hle _]]]]]]]];
    try (exists n; split; [exact HN | exact Hle]);
    rewrite Hrun; unfold prepend; cbn [snd];
    try destruct (prints_write_nothing prints Hp) as [Hp1 _];
    rewrite !reg_writes_app, ?Hq, ?Hp1; intros H; exfalso; apply Hreset;
    simpl in H; rewrite ?app_nil_r in H; exact H.
Qed.

Lemma X14_reset_released_only_for_empty_waveform_witness :
  exists n, N empty_waveform_config = Done n /\ n <= 0.
Proof.
  apply (X14_reset_released_only_for_empty_waveform
           empty_waveform_config (plain_world 0xC5414243)).
  vm_compute. do 18 right. left. reflexivity.
Defined.

Lemma hardware_accesses_app (e1 e2 : list event) :
  hardware_accesses (e1 ++ e2) = hardware_accesses e1 ++ hardware_accesses e2.
Proof. unfold hardware_accesses. apply filter_app. Qed.

Lemma file_bytes_app (e1 e2 : list event) :
  file_bytes (e1 ++ e2) = file_bytes e1 ++ file_bytes e2.
Proof. unfold file_bytes. apply flat_map_app. Qed.

Lemma json_dumps_app (e1 e2 : list event) :
  json_dumps (e1 ++ e2) = json_dumps e1 ++ json_dumps e2.
Proof. unfold json_dumps. apply flat_map_app. Qed.

Lemma extract_reads_no_register (evs : list event) :
  forallb extract_kind evs = true -> reg_reads evs = [].
Proof.
  induction evs as [| e evs IH]; [reflexivity |].
  simpl. intros H. apply andb_true_iff in H. destruct H as [He H].
  destruct e; try discriminate; simpl; apply IH; exact H.
Qed.

Lemma reg_reads_app (e1 e2 : list event) :
  reg_reads (e1 ++ e2) = reg_reads e1 ++ reg_reads e2.
Proof. unfold reg_reads. apply flat_map_app. Qed.

(** What a completed run of lines 278 to 430 leaves in the trace. *)
Lemma acquire_events_facts (cfg : Config) (ws : Z) (L : Layout)
  (ex rx : float) (loop : list event) :
  forallb extract_kind loop = true ->
  hardware_accesses (acquire_events cfg ws L ex rx loop)
  = map (fun rv => EvWrite32 (fst rv) (snd rv)) (configure_writes cfg L)
    ++ [ EvWrite32 SOFT_RESET_REG 0; EvRamWrite 0 (ZeroBytes (2 * ws)) ]
    ++ map (fun r => EvRamRead (fst r) (snd r)) (ram_reads loop)
    ++ map (fun rv => EvWrite32 (fst rv) (snd rv)) shutdown_writes /\
  filter is_close (acquire_events cfg ws L ex rx loop)
  = [EvCloseRam; EvCloseAxil] /\
  existsb is_close (acquire_events cfg ws L ex rx loop) = true /\
  reg_reads (acquire_events cfg ws L ex rx loop) = [] /\
  file_bytes (acquire_events cfg ws L ex rx loop) = file_bytes loop /\
  json_dumps (acquire_events cfg ws L ex rx loop) = [metadata_of cfg L].
Proof.
  intros Hk.
  destruct (extract_kind_facts loop Hk) as [_ [_ [Hjs [Hcl Hhw]]]].
  pose proof (extract_reads_no_register loop Hk) as Hrr.
  assert (Hf : filter is_close loop = []).
  { clear - Hcl. induction loop as [| e l IH]; [reflexivity |].
    simpl in *. apply orb_false_iff in Hcl. destruct Hcl as [He Hl].
    rewrite He. apply IH. exact Hl. }
  unfold acquire_events, run_events.
  split; [| split; [| split; [| split; [| split]]]].
  - rewrite !hardware_accesses_app, Hhw. reflexivity.
  - rewrite !filter_app, Hf. reflexivity.
  - rewrite !existsb_app, Hcl. reflexivity.
  - rewrite !reg_reads_app, Hrr. reflexivity.
  - rewrite !file_bytes_app. simpl. rewrite app_nil_r. reflexivity.
  - rewrite !json_dumps_app, Hjs. reflexivity.
Qed.



(** X13: whenever lines 278 to 430 run to the end with a capture byte
    length that is not negative, the bytes written to the raw file are the
    bytes of the buffer from the relative capture offset on, one metadata
    record is dumped, and its [capture_bytes] is the length of the raw file
    and its [capture_start_offset_rel] the offset the file was read from. *)
Theorem X13_saved_file_matches_metadata (cfg : Config) (ws : Z) (L : Layout)
  (w w' : world) (evs : list event) :
  acquire cfg ws L w = (Done tt, w', evs) ->
  0 <= l_true_writer_bytes L ->
  file_bytes evs
  = ddr_slice (ddr w) (l_writer_offset_rel L) (l_true_writer_bytes L) /\
  exists m,
    json_dumps evs = [m] /\
    md_capture_bytes m = Z.of_nat (List.length (file_bytes evs)) /\
    md_capture_start_offset_rel m = l_writer_offset_rel L.
Proof.
  intros Hdone HB.
  destruct (acquire_cases cfg ws L w)
    as [[ex [rx [loop [Hrun [_ [_ [_ [_ [_ [_ [Hk [_ Hby]]]]]]]]]]]]
        | [e [evs0 [Hrun _]]]];
    rewrite Hrun in Hdone; [| discriminate].
  injection Hdone as <- <-.
  destruct (acquire_events_facts cfg ws L ex rx loop Hk)
    as [_ [_ [_ [_ [Hfile Hjs]]]]].
  rewrite Hfile, Hby. split; [reflexivity |].
  exists (metadata_of cfg L). split; [exact Hjs |].
  split; [| reflexivity].
  rewrite ddr_slice_length by exact HB. reflexivity.
Qed.

Lemma X13_saved_file_matches_metadata_witness :
  Z.of_nat (List.length
              (file_bytes (snd (acquire empty_waveform_config 0 small_layout
                                        (plain_world 0))))) = 256 /\
  exists m,
    json_dumps (snd (acquire empty_waveform_config 0 small_layout
                             (plain_world 0))) = [m] /\
    md_capture_bytes m = 256 /\
    md_capture_start_offset_rel m = 0.
Proof.
  destruct (X13_saved_file_matches_metadata empty_waveform_config 0
              small_layout (plain_world 0) (plain_world 0)
              (snd (acquire empty_waveform_config 0 small_layout
                            (plain_world 0))))
    as [Hfile [m [Hjs [Hlen Hoff]]]].
  - vm_compute. reflexivity.
  - vm_compute. discriminate.
  - split.
    + rewrite Hfile. vm_compute. reflexivity.
    + exists m. split; [exact Hjs |]. split; [| exact Hoff].
      rewrite Hlen, Hfile. vm_compute. reflexivity.
Defined.

(** X15: a run of the script closes a mapping exactly when it runs to the
    end; on every path that ends in an exception or in [sys.exit] the
    mappings are left open. *)
Theorem X15_mappings_closed_iff_completed (cfg : Config) (w : world) :
  existsb is_close (snd (main cfg w)) = true
  <-> fst (fst (main cfg w)) = Done tt.
Proof.
  rewrite main_unfold.
  destruct (axil_maps w && ram_maps w).
  2: { destruct (axil_maps w); simpl; split; discriminate. }
  destruct (decode_identity (reg_in w (reg_pos w))) as [magic_str | e].
  2: { simpl; split; discriminate. }
  destruct (identity_events_quiet (reg_in w (reg_pos w)) magic_str) as [_ Hq].
  set (pre := mapping_events cfg ++ identity_events _ _ _).
  assert (Hpre : existsb is_close pre = false).
  { unfold pre. rewrite existsb_app, Hq. reflexivity. }
  destruct (after_identity_outcomes cfg (next_reg w))
    as [[e [_ Hrun]] | [[n [e [prints [_ [_ [Hp Hrun]]]]]]
        | [[n [L [prints [_ [_ [_ [Hp Hrun]]]]]]]
           | [n [L [prints [_ [_ [_ [Hp Hrun]]]]]]]]]];
    rewrite Hrun; clear Hrun;
    try destruct (prints_close_nothing prints Hp) as [Hpc _].
  - unfold prepend. cbn [fst snd].
    rewrite !existsb_app, Hpre. simpl. split; discriminate.
  - unfold prepend. cbn [fst snd].
    rewrite !existsb_app, Hpre, Hpc. simpl. split; discriminate.
  - unfold prepend. cbn [fst snd].
    rewrite !existsb_app, Hpre, Hpc. simpl. split; discriminate.
  - destruct (acquire_cases cfg 0 L (next_reg w))
      as [[ex [rx [loop [Hrun [_ [_ [_ [_ [_ [_ [Hk _]]]]]]]]]]]
          | [e [evs0 [Hrun Hcalm]]]];
      rewrite Hrun; clear Hrun; unfold prepend; cbn [fst snd].
    + destruct (acquire_events_facts cfg 0 L ex rx loop Hk)
        as [_ [_ [Hcl _]]].
      rewrite !existsb_app, Hcl, !orb_true_r. split; reflexivity.
    + destruct (calm_facts evs0 Hcalm) as [_ Hcl].
      rewrite !existsb_app, Hpre, Hpc, Hcl. simpl. split; discriminate.
Qed.

Lemma prints_read_nothing (evs : list event) :
  forallb is_print evs = true -> reg_reads evs = [].
Proof.
  induction evs as [| e evs IH]; [reflexivity |].
  simpl. intros H. apply andb_true_iff in H. destruct H as [He H].
  destruct e; try discriminate. simpl. apply IH. exact H.
Qed.

(** X16: a run of the script reads at most one register, the identity
    register, once; the done flags and the pointer registers are never
    read. *)
Theorem X16_only_the_identity_register_is_read (cfg : Config) (w : world) :
  reg_reads (snd (main cfg w)) = []
  \/ reg_reads (snd (main cfg w)) = [(MLA_CONST_REG, reg_in w (reg_pos w))].
Proof.
  rewrite main_unfold.
  destruct (axil_maps w && ram_maps w).
  2: { left. destruct (axil_maps w); reflexivity. }
  right.
  destruct (decode_identity (reg_in w (reg_pos w))) as [magic_str | e].
  2: { reflexivity. }
  set (pre := mapping_events cfg ++ identity_events _ _ _).
  assert (Hpre : reg_reads pre = [(MLA_CONST_REG, reg_in w (reg_pos w))]).
  { unfold pre, identity_events.
    destruct (magic_str =? expected_magic)%string; reflexivity. }
  destruct (after_identity_outcomes cfg (next_reg w))
    as [[e [_ Hrun]] | [[n [e [prints [_ [_ [Hp Hrun]]]]]]
        | [[n [L [prints [_ [_ [_ [Hp Hrun]]]]]]]
           | [n [L [prints [_ [_ [_ [Hp Hrun]]]]]]]]]];
    rewrite Hrun; clear Hrun;
    try pose proof (prints_read_nothing prints Hp) as Hpr.
  - unfold prepend. cbn [snd]. rewrite !reg_reads_app, Hpre. reflexivity.
  - unfold prepend. cbn [snd]. rewrite !reg_reads_app, Hpre, Hpr. reflexivity.
  - unfold prepend. cbn [snd]. rewrite !reg_reads_app, Hpre, Hpr. reflexivity.
  - destruct (acquire_cases cfg 0 L (next_reg w))
      as [[ex [rx [loop [Hrun [_ [_ [_ [_ [_ [_ [Hk _]]]]]]]]]]]
          | [e [evs0 [Hrun Hcalm]]]];
      rewrite Hrun; clear Hrun; unfold prepend; cbn [snd].
    + destruct (acquire_events_facts cfg 0 L ex rx loop Hk)
        as [_ [_ [_ [Hrr _]]]].
      rewrite !reg_reads_app, Hpre, Hpr, Hrr. reflexivity.
    + destruct (calm_facts evs0 Hcalm) as [Hrr _].
      rewrite !reg_reads_app, Hpre, Hpr, Hrr. reflexivity.
Qed.

(** X18: when one of the values that STEP 8 writes to a register is not
    an unsigned 32-bit number, [write32] refuses it with ValueError and
    the script stops there: the registers before it in the order of
    STEP 8 have been written, with values in range, and nothing else has
    touched the hardware; the reset is not released and no mapping is
    closed. *)
Theorem X18_refused_register_value (cfg : Config) (ws : Z) (L : Layout)
  (w : world) :
  Exists (fun rv => snd rv < 0 \/ 0xFFFFFFFF < snd rv) (configure_writes cfg L) ->
  exists evs done rv rest,
    acquire cfg ws L w = (Raised ValueError, w, evs) /\
    configure_writes cfg L = done ++ rv :: rest /\
    Forall (fun x => 0 <= snd x <= 0xFFFFFFFF) done /\
    (snd rv < 0 \/ 0xFFFFFFFF < snd rv) /\
    hardware_accesses evs = map (fun x => EvWrite32 (fst x) (snd x)) done /\
    ~ In (SOFT_RESET_REG, 0) (reg_writes evs) /\
    existsb is_close evs = false.
Proof.
  intros Hbad.
  destruct (configure_cases cfg L w)
    as [[_ Hu] | [evs [done [rv [rest [Hc [Hcalm [Hrw [Hsplit [Hhw [Hin Hout]]]]]]]]]]].
  - exfalso. rewrite forallb_forall in Hu.
    apply Exists_exists in Hbad. destruct Hbad as [x [Hx Hr]].
    specialize (Hu x Hx). apply u32_spec in Hu. lia.
  - exists evs, done, rv, rest.
    split; [unfold acquire, bind at 1; rewrite Hc; reflexivity |].
    split; [exact Hsplit |].
    split.
    { apply Forall_forall. intros x Hx. apply u32_spec.
      rewrite forallb_forall in Hin. apply Hin. exact Hx. }
    split.
    { destruct (Z.le_gt_cases 0 (snd rv)) as [H0 | H0]; [| left; lia].
      destruct (Z.le_gt_cases (snd rv) 0xFFFFFFFF) as [H1 | H1];
        [| right; lia].
      assert (Hin' : u32 (snd rv) = true) by (apply u32_spec; lia).
      rewrite Hin' in Hout. discriminate. }
    split; [exact Hhw |].
    split; [| exact (proj2 (calm_facts evs Hcalm))].
    rewrite Hrw. intros Hrel.
    assert (Hall : In (SOFT_RESET_REG, 0) (configure_writes cfg L))
      by (rewrite Hsplit; apply in_or_app; left; exact Hrel).
    unfold configure_writes in Hall. simpl in Hall.
    repeat (destruct Hall as [Hall | Hall];
            [inversion Hall; discriminate |]).
    exact Hall.
Qed.

Lemma X18_refused_register_value_witness :
  exists evs,
    acquire negative_excitation_config 0 small_layout (plain_world 0)
    = (Raised ValueError, plain_world 0, evs) /\
    hardware_accesses evs
    = [ EvWrite32 WRITER_MIN_ADDRESS_REG 16777216;
        EvWrite32 WRITER_NUM_BURSTS_REG 0;
        EvWrite32 READER_MIN_ADDRESS_REG 16777216;
        EvWrite32 READER_NUM_BURSTS_REG 2 ].
Proof.
  destruct (X18_refused_register_value negative_excitation_config 0
              small_layout (plain_world 0))
    as [evs [done [rv [rest [Hrun [Hsplit [_ [_ [Hhw _]]]]]]]]].
  - unfold configure_writes. do 4 apply Exists_cons_tl.
    apply Exists_cons_hd. left. simpl. lia.
  - exists evs. split; [exact Hrun |].
    assert (Hev : snd (acquire negative_excitation_config 0 small_layout
                               (plain_world 0)) = evs)
      by (rewrite Hrun; reflexivity).
    rewrite <- Hev. vm_compute. reflexivity.
Defined.
